(** * firma_rsa.py: an RSA digital-signature walkthrough, embedded in Rocq

    The script [firma_digital_rsa/firma_rsa.py] is a straight-line driver:
    it generates an RSA key pair, signs a fixed message with RSA-PSS over
    SHA-256, verifies the signature against the original message and then
    against a modified one, and narrates every step on standard output.

    The embedding follows the script statement by statement.  The calls
    into the [cryptography] package are calls through an interface
    ([Cryptography] below): the package is not part of the repository, so
    its operations are parameters, and what the package documents about
    them is stated as explicit laws that the theorems name one by one.
    Where a property is about what the package itself computes (that a
    signature verifies, how long it is, that verifying changes nothing),
    the package is modelled from the specification: [RSAPSS] below is the
    signature scheme the specification names, behind the same interface.

    Outside the model: the [import] lines (taken to succeed) and failures
    of [print] itself (standard output is taken to accept every line). *)

From Stdlib Require Import ZArith NArith List String Ascii Bool Lia.
From Stdlib Require Strings.Byte.
From Stdlib Require Zmod.
Import ListNotations.

Local Open Scope string_scope.

(** ** Python values *)

(** A Python [bytes] object: an immutable sequence of octets. *)
Definition bytes := list Byte.byte.

(** A Python [str], kept as its UTF-8 encoding (the encoding of the source
    file and of the literals below). *)
Definition str := string.

(** [b"..."] literals of the script contain ASCII only; the literal is the
    list of its characters' codes. *)
Definition b (s : string) : bytes := list_byte_of_string s.

Definition nl : str := String (ascii_of_nat 10) EmptyString.

(** ** Exceptions

    The classes the script can meet, with the part of the hierarchy that
    [except Exception] looks at: every class below derives from
    [BaseException], and all but the three system-exiting ones derive from
    [Exception]. *)
Inductive ExcClass : Type :=
| InvalidSignature        (* cryptography.exceptions.InvalidSignature *)
| UnsupportedAlgorithm    (* cryptography.exceptions.UnsupportedAlgorithm *)
| InternalError           (* cryptography.exceptions.InternalError *)
| TypeError
| ValueError
| UnicodeDecodeError
| MemoryError
| OtherException (name : string)       (* any further subclass of Exception *)
| KeyboardInterrupt
| SystemExit
| GeneratorExit.

(** An exception object: its class and what [str(e)] renders. *)
Record PyExc : Type := mkExc { exc_class : ExcClass; exc_str : str }.

(** [isinstance(e, Exception)]. *)
Definition isinstance_Exception (e : PyExc) : bool :=
  match exc_class e with
  | KeyboardInterrupt | SystemExit | GeneratorExit => false
  | _ => true
  end.

(** The outcome of evaluating an expression or a call: a value, or a
    raised exception. *)
Inductive Result (A : Type) : Type :=
| Return (a : A)
| Raise (e : PyExc).
Arguments Return {A} a.
Arguments Raise {A} e.

(** ** Built-ins the script uses *)

(** [data[:n]] on bytes: the first [n] octets, or all of them when there
    are fewer. *)
Definition slice_to (n : nat) (data : bytes) : bytes := firstn n data.

(** [bytes.decode()] with the default codec (UTF-8, strict).  A [str] is
    kept UTF-8 encoded, so decoding checks well-formedness and keeps the
    octets.  On ill-formed input it raises [UnicodeDecodeError]; the text
    of that error (offending byte and position) is cut short here, as
    nothing in the script reads it. *)
Inductive Utf8State : Type :=
| U_start
| U_cont (pending : nat) (lo hi : N).

Definition utf8_step (st : Utf8State) (c : N) : option Utf8State :=
  match st with
  | U_start =>
      if (c <? 128)%N then Some U_start
      else if ((194 <=? c) && (c <=? 223))%N then Some (U_cont 0 128 191)
      else if (c =? 224)%N then Some (U_cont 1 160 191)
      else if ((225 <=? c) && (c <=? 236))%N then Some (U_cont 1 128 191)
      else if (c =? 237)%N then Some (U_cont 1 128 159)
      else if ((238 <=? c) && (c <=? 239))%N then Some (U_cont 1 128 191)
      else if (c =? 240)%N then Some (U_cont 2 144 191)
      else if ((241 <=? c) && (c <=? 243))%N then Some (U_cont 2 128 191)
      else if (c =? 244)%N then Some (U_cont 2 128 143)
      else None
  | U_cont pending lo hi =>
      if ((lo <=? c) && (c <=? hi))%N then
        match pending with
        | O => Some U_start
        | S k => Some (U_cont k 128 191)
        end
      else None
  end.

Fixpoint utf8_valid_from (st : Utf8State) (data : bytes) : bool :=
  match data with
  | [] => match st with U_start => true | U_cont _ _ _ => false end
  | c :: rest =>
      match utf8_step st (Byte.to_N c) with
      | Some st' => utf8_valid_from st' rest
      | None => false
      end
  end.

Definition decode (data : bytes) : Result str :=
  if utf8_valid_from U_start data
  then Return (string_of_list_byte data)
  else Raise (mkExc UnicodeDecodeError "'utf-8' codec can't decode").

(** [repr] of a bytes object, which is also what an f-string field
    [{data}] renders: [b'...'] with the octets escaped. *)
Definition squote : ascii := ascii_of_nat 39.
Definition dquote : ascii := ascii_of_nat 34.
Definition backslash : ascii := ascii_of_nat 92.

Definition hexdigit (n : N) : ascii :=
  if (n <? 10)%N then ascii_of_N (48 + n) else ascii_of_N (87 + n).

Definition repr_quote (data : bytes) : ascii :=
  if existsb (fun c => (Byte.to_N c =? 39)%N) data
     && negb (existsb (fun c => (Byte.to_N c =? 34)%N) data)
  then dquote else squote.

Definition repr_byte (quote : ascii) (c : Byte.byte) : str :=
  let n := Byte.to_N c in
  if ((n =? N_of_ascii quote) || (n =? 92))%N
  then String backslash (String (ascii_of_N n) EmptyString)
  else if (n =? 9)%N then String backslash "t"
  else if (n =? 10)%N then String backslash "n"
  else if (n =? 13)%N then String backslash "r"
  else if ((n <? 32) || (127 <=? n))%N
  then String backslash
         (String "x" (String (hexdigit (n / 16)) (String (hexdigit (n mod 16)) EmptyString)))
  else String (ascii_of_N n) EmptyString.

Definition repr_bytes (data : bytes) : str :=
  let q := repr_quote data in
  String "b" (String q (String.concat "" (map (repr_byte q) data)
                          ++ String q EmptyString)).

(** ** The [cryptography] package, as the script sees it *)

(** [hashes.SHA256()] and its siblings. *)
Inductive HashAlgorithm : Type := SHA1 | SHA224 | SHA256 | SHA384 | SHA512.

(** [padding.MGF1(algorithm)]. *)
Inductive MGF : Type := MGF1 (algorithm : HashAlgorithm).

(** The [salt_length] argument of [padding.PSS]: one of the class
    constants or a number of octets. *)
Inductive SaltLength : Type :=
| MAX_LENGTH
| AUTO
| DIGEST_LENGTH
| SaltOctets (n : Z).

(** [padding.PSS(mgf, salt_length)] and [padding.PKCS1v15()]. *)
Inductive AsymmetricPadding : Type :=
| PSS (mgf : MGF) (salt_length : SaltLength)
| PKCS1v15.

(** What [default_backend()] returns. *)
Inductive Backend : Type := OpenSSLBackend.
Definition default_backend : Backend := OpenSSLBackend.

(** The operations the script calls.  [LibState] is whatever the package
    keeps outside the script's reach, the random source above all: key
    generation and PSS signing draw from it.  A call hands back its
    outcome and the state it leaves. *)
Class Cryptography : Type := {
  RSAPrivateKey : Type;
  RSAPublicKey : Type;
  LibState : Type;
  (* rsa.generate_private_key(public_exponent, key_size, backend) *)
  rsa_generate_private_key :
    Z -> Z -> Backend -> LibState -> Result RSAPrivateKey * LibState;
  (* private_key.public_key() *)
  rsa_public_key : RSAPrivateKey -> RSAPublicKey;
  (* private_key.key_size *)
  key_size : RSAPrivateKey -> Z;
  (* private_key.sign(data, padding, algorithm) *)
  rsa_sign :
    RSAPrivateKey -> bytes -> AsymmetricPadding -> HashAlgorithm ->
    LibState -> Result bytes * LibState;
  (* public_key.verify(signature, data, padding, algorithm):
     returns None, or raises *)
  rsa_verify :
    RSAPublicKey -> bytes -> bytes -> AsymmetricPadding -> HashAlgorithm ->
    LibState -> Result unit * LibState
}.

Section Script.

Context {L : Cryptography}.

(** *** What the package documents about these operations

    Each law is a proposition about the interface; a theorem that needs
    one takes it as a hypothesis. *)

(** A generated key has the requested size. *)
Definition KeySizeLaw : Prop :=
  forall e bits be s private_key s',
    rsa_generate_private_key e bits be s = (Return private_key, s') ->
    key_size private_key = bits.

(** A signature is as long as the modulus, in octets. *)
Definition SignatureLengthLaw : Prop :=
  forall private_key data pad alg s signature s',
    rsa_sign private_key data pad alg s = (Return signature, s') ->
    Z.of_nat (List.length signature) = ((key_size private_key + 7) / 8)%Z.

(** What a generated key signs, its public half accepts, under the same
    padding and digest. *)
Definition SignVerifyLaw : Prop :=
  forall e bits be s0 private_key s1,
    rsa_generate_private_key e bits be s0 = (Return private_key, s1) ->
    forall data pad alg s signature s',
      rsa_sign private_key data pad alg s = (Return signature, s') ->
      forall s'',
        fst (rsa_verify (rsa_public_key private_key) signature data pad alg s'')
        = Return tt.

(** Verification raises nothing outside [Exception]. *)
Definition VerifyRaisesExceptionLaw : Prop :=
  forall public_key signature data pad alg s e,
    fst (rsa_verify public_key signature data pad alg s) = Raise e ->
    isinstance_Exception e = true.

(** Verification leaves the package's state as it found it. *)
Definition VerifyPureLaw : Prop :=
  forall public_key signature data pad alg s,
    snd (rsa_verify public_key signature data pad alg s) = s.

(** Two further statements one meets about signatures.  The first is what
    the package documents for a well-formed key and message.  The second,
    read without "with overwhelming probability", is not a law: the
    remark [rejection_of_other_messages_is_not_a_law] below shows that no
    package can have it together with the laws above. *)
Definition SignReturns (private_key : RSAPrivateKey) (s : LibState) : Prop :=
  forall data,
    exists signature,
      fst (rsa_sign private_key data (PSS (MGF1 SHA256) MAX_LENGTH) SHA256 s)
      = Return signature.

Definition RejectsOtherMessages : Prop :=
  forall e bits be s0 private_key s1,
    rsa_generate_private_key e bits be s0 = (Return private_key, s1) ->
    forall data data' pad alg s signature s',
      rsa_sign private_key data pad alg s = (Return signature, s') ->
      data <> data' ->
      forall s'',
        fst (rsa_verify (rsa_public_key private_key) signature data' pad alg s'')
        <> Return tt.

(** ** The world the script runs in *)

(** One entry per call into the package, with its arguments and outcome. *)
Inductive Call : Type :=
| CallGenerate (public_exponent key_size : Z) (backend : Backend)
               (outcome : Result RSAPrivateKey)
| CallPublicKey (private_key : RSAPrivateKey) (outcome : RSAPublicKey)
| CallSign (private_key : RSAPrivateKey) (data : bytes)
           (pad : AsymmetricPadding) (alg : HashAlgorithm)
           (outcome : Result bytes)
| CallVerify (public_key : RSAPublicKey) (signature data : bytes)
             (pad : AsymmetricPadding) (alg : HashAlgorithm)
             (outcome : Result unit).

(** Standard output (one entry per [print]), the package's state, and the
    log of calls made so far. *)
Record World : Type := mkWorld {
  stdout : list str;
  lib_state : LibState;
  calls : list Call
}.

(** A statement or expression of the script: it runs in a world, returns
    or raises, and leaves a world.  What was printed before an exception
    stays printed. *)
Definition Script (A : Type) : Type := World -> Result A * World.

Definition ret {A} (a : A) : Script A := fun w => (Return a, w).

Definition bind {A B} (c : Script A) (k : A -> Script B) : Script B :=
  fun w =>
    match c w with
    | (Return a, w') => k a w'
    | (Raise e, w') => (Raise e, w')
    end.

Definition lift {A} (r : Result A) : Script A := fun w => (r, w).

End Script.

Declare Scope script_scope.
Delimit Scope script_scope with script.
Notation "x <- c ;; k" := (bind c (fun x => k))
  (at level 61, c at next level, right associativity) : script_scope.
Notation "c ;; k" := (bind c (fun _ => k))
  (at level 61, right associativity) : script_scope.

Section Statements.

Context {L : Cryptography}.
Local Open Scope script_scope.

(** [print(s)]. *)
Definition print (s : str) : Script unit :=
  fun w => (Return tt, mkWorld (stdout w ++ [s])%list (lib_state w) (calls w)).

(** [try: body  except Exception as e: handler]. *)
Definition try_except_Exception {A} (body : Script A)
    (handler : PyExc -> Script A) : Script A :=
  fun w =>
    match body w with
    | (Return a, w') => (Return a, w')
    | (Raise e, w') =>
        if isinstance_Exception e then handler e w' else (Raise e, w')
    end.

(** Calls into the package: run the operation on the package's state and
    log the call. *)
Definition generate_private_key (public_exponent key_size : Z)
    (backend : Backend) : Script RSAPrivateKey :=
  fun w =>
    let out := rsa_generate_private_key public_exponent key_size backend
                 (lib_state w) in
    (fst out,
     mkWorld (stdout w) (snd out)
       (calls w ++ [CallGenerate public_exponent key_size backend (fst out)])%list).

Definition public_key_of (private_key : RSAPrivateKey) : Script RSAPublicKey :=
  fun w =>
    let pk := rsa_public_key private_key in
    (Return pk,
     mkWorld (stdout w) (lib_state w)
       (calls w ++ [CallPublicKey private_key pk])%list).

Definition sign (private_key : RSAPrivateKey) (data : bytes)
    (pad : AsymmetricPadding) (alg : HashAlgorithm) : Script bytes :=
  fun w =>
    let out := rsa_sign private_key data pad alg (lib_state w) in
    (fst out,
     mkWorld (stdout w) (snd out)
       (calls w ++ [CallSign private_key data pad alg (fst out)])%list).

Definition verify (public_key : RSAPublicKey) (signature data : bytes)
    (pad : AsymmetricPadding) (alg : HashAlgorithm) : Script unit :=
  fun w =>
    let out := rsa_verify public_key signature data pad alg (lib_state w) in
    (fst out,
     mkWorld (stdout w) (snd out)
       (calls w ++ [CallVerify public_key signature data pad alg (fst out)])%list).

End Statements.

(** ** The script *)

Section FirmaRSA.

Context {L : Cryptography}.
Local Open Scope script_scope.

(** Paso 3: generate the key pair (lines 28-36). *)
Definition paso3 : Script (RSAPrivateKey * RSAPublicKey) :=
  private_key <- generate_private_key 65537 2048 default_backend ;;
  public_key <- public_key_of private_key ;;
  print "✅ Par de claves RSA (privada y pública) generado con éxito." ;;
  ret (private_key, public_key).

(** Paso 4: show the message (line 41). *)
Definition paso4 (message : bytes) : Script unit :=
  text <- lift (decode message) ;;
  print (nl ++ "📝 Mensaje original: '" ++ text ++ "'").

(** Paso 5: sign the message with the private key and show the first
    30 octets of the signature (lines 50-59). *)
Definition paso5 (private_key : RSAPrivateKey) (message : bytes) : Script bytes :=
  signature <- sign private_key message
                 (PSS (MGF1 SHA256) MAX_LENGTH)
                 SHA256 ;;
  print ("✍️ Firma digital creada (primeros 30 bytes para referencia): "
           ++ repr_bytes (slice_to 30 signature) ++ "...") ;;
  ret signature.

(** Paso 6: verify the signature against the original message
    (lines 65-77). *)
Definition paso6 (public_key : RSAPublicKey) (signature message : bytes)
    : Script unit :=
  try_except_Exception
    (verify public_key signature message
       (PSS (MGF1 SHA256) MAX_LENGTH)
       SHA256 ;;
     print (nl ++ "✅ Firma verificada con éxito. El mensaje es auténtico y no ha sido alterado."))
    (fun e =>
     print (nl ++ "❌ ERROR: La firma no es válida. Esto podría indicar que el mensaje fue alterado o que la firma es falsa. Detalles: "
              ++ exc_str e)).

(** Paso 7: verify the same signature against the altered message
    (lines 82-99). *)
Definition paso7 (public_key : RSAPublicKey) (signature message_alterado : bytes)
    : Script unit :=
  text <- lift (decode message_alterado) ;;
  print (nl ++ "--- Intentando verificar la firma con un mensaje ALTERADO: '"
           ++ text ++ "' ---") ;;
  try_except_Exception
    (verify public_key signature message_alterado
       (PSS (MGF1 SHA256) MAX_LENGTH)
       SHA256 ;;
     print "⚠️ ¡Advertencia! La firma ES VÁLIDA para el mensaje alterado. Esto NO debería ocurrir.")
    (fun e =>
     print "🛑 Alerta: La firma es INVÁLIDA para el mensaje alterado. Esto es lo esperado y demuestra que la firma digital detectó la manipulación." ;;
     print ("Error específico: " ++ exc_str e)).

(** The whole script, top to bottom. *)
Definition firma_rsa : Script unit :=
  print "🚀 Iniciando el proceso de firma digital con RSA..." ;;
  keys <- paso3 ;;
  let private_key := fst keys in
  let public_key := snd keys in
  let message := b "Este es el mensaje que quiero firmar digitalmente." in
  paso4 message ;;
  signature <- paso5 private_key message ;;
  paso6 public_key signature message ;;
  let message_alterado := b "Este es un mensaje modificado." in
  paso7 public_key signature message_alterado ;;
  print (nl ++ "🎉 Proceso de firma y verificación digital con RSA completado.").

End FirmaRSA.

(** ** A small instance of the interface

    Textbook RSA over the modulus 61 * 53, with a toy digest, behind the
    same operations.  It is there to run the script on and to show that
    the laws above can hold together; it is not the package. *)
Module Toy.

Local Open Scope Z_scope.

Definition modulus : Z := 3233.
Definition private_exponent : positive := 2753.
Definition public_exponent : positive := 65537.

(** Modular exponentiation, square and multiply. *)
Fixpoint powmod (a : Z) (e : positive) (n : Z) : Z :=
  match e with
  | xH => a mod n
  | xO e' => let r := powmod a e' n in (r * r) mod n
  | xI e' => let r := powmod a e' n in ((r * r) mod n * a) mod n
  end.

Definition digest (data : bytes) : Z :=
  fold_left (fun h c => (h * 256 + Z.of_N (Byte.to_N c)) mod modulus) data 1%Z.

Definition octet (x : Z) : Byte.byte :=
  match Byte.of_N (Z.to_N (x mod 256)) with
  | Some c => c
  | None => Byte.x00
  end.

(** Big-endian octet string of a given length, and back. *)
Fixpoint I2OSP (x : Z) (len : nat) : bytes :=
  match len with
  | O => []
  | S k => (I2OSP (x / 256) k ++ [octet x])%list
  end.

Definition OS2IP (data : bytes) : Z :=
  fold_left (fun acc c => (acc * 256 + Z.of_N (Byte.to_N c))%Z) data 0%Z.

Record key : Type := mkKey { bits : N }.

Definition octets_of (k : key) : nat := N.to_nat ((bits k + 7) / 8).

Definition generate (e size : Z) (_ : Backend) (s : Z)
    : Result key * Z :=
  if ((e =? Zpos public_exponent) && (1024 <=? size))%Z
  then (Return (mkKey (Z.to_N size)), (s + size / 8)%Z)
  else (Raise (mkExc ValueError "unsupported key parameters"), s).

Definition sign_with (k : key) (data : bytes) (_ : AsymmetricPadding)
    (_ : HashAlgorithm) (s : Z) : Result bytes * Z :=
  (Return (I2OSP (powmod (digest data) private_exponent modulus) (octets_of k)),
   (s + 1)%Z).

Definition verify_exp (e : positive) (k : key) (signature data : bytes)
    (_ : AsymmetricPadding) (_ : HashAlgorithm) (s : Z) : Result unit * Z :=
  if (powmod (OS2IP signature) e modulus =? digest data)%Z
  then (Return tt, s)
  else (Raise (mkExc InvalidSignature ""), s).

Definition verify_with := verify_exp public_exponent.

#[export] Instance lib : Cryptography := {|
  RSAPrivateKey := key;
  RSAPublicKey := key;
  LibState := Z;
  rsa_generate_private_key := generate;
  rsa_public_key := fun k => k;
  key_size := fun k => Z.of_N (bits k);
  rsa_sign := sign_with;
  rsa_verify := verify_with
|}.

Definition world0 : World := mkWorld [] 0%Z [].

(** The same instance with a verifier that uses the wrong exponent, to
    run the script where the first verification fails too. *)
Definition lib_mismatch : Cryptography := {|
  RSAPrivateKey := key;
  RSAPublicKey := key;
  LibState := Z;
  rsa_generate_private_key := generate;
  rsa_public_key := fun k => k;
  key_size := fun k => Z.of_N (bits k);
  rsa_sign := sign_with;
  rsa_verify := verify_exp 3
|}.

Definition world0_mismatch : @World lib_mismatch := @mkWorld lib_mismatch [] 0%Z [].

(** What a 2048-bit key of this instance signs [data] with. *)
Definition firma (data : bytes) : bytes :=
  I2OSP (powmod (digest data) private_exponent modulus) 256.

End Toy.

(** ** A stand-in with answers fixed in advance

    Key generation answers [g], signing answers [sg], and verification
    of [data] answers [v data]; the state counts the calls that draw
    randomness.  It serves to run the script where the package fails. *)
Module Stub.

Definition lib (g : Result unit) (sg : Result bytes) (v : bytes -> Result unit)
    : Cryptography := {|
  RSAPrivateKey := unit;
  RSAPublicKey := unit;
  LibState := nat;
  rsa_generate_private_key := fun _ _ _ s => (g, S s);
  rsa_public_key := fun k => k;
  key_size := fun _ => 2048%Z;
  rsa_sign := fun _ _ _ _ s => (sg, S s);
  rsa_verify := fun _ _ data _ _ s => (v data, s)
|}.

Definition world0 (g : Result unit) (sg : Result bytes)
    (v : bytes -> Result unit) : @World (lib g sg v) :=
  @mkWorld (lib g sg v) [] O [].

End Stub.

(** Octets below 128, the ASCII range. *)
Definition is_ascii (data : bytes) : bool :=
  forallb (fun c => (Byte.to_N c <? 128)%N) data.

(** ** Reading a run *)

Section Runs.

Context {L : Cryptography}.

(** What a statement printed, and which calls it made, when run in [w]. *)
Definition printed {A} (c : Script A) (w : World) : list str :=
  skipn (List.length (stdout w)) (stdout (snd (c w))).

Definition called {A} (c : Script A) (w : World) : list Call :=
  skipn (List.length (calls w)) (calls (snd (c w))).

(** The lines of a run, named after the statement that prints them
    (the lemmas of the next part show that the script prints these). *)
Definition lineas_inicio : list str :=
  ["🚀 Iniciando el proceso de firma digital con RSA...";
   "✅ Par de claves RSA (privada y pública) generado con éxito.";
   nl ++ "📝 Mensaje original: 'Este es el mensaje que quiero firmar digitalmente.'"].

Definition linea_firma (signature : bytes) : str :=
  "✍️ Firma digital creada (primeros 30 bytes para referencia): "
    ++ repr_bytes (slice_to 30 signature) ++ "...".

Definition linea_anuncio (text : str) : str :=
  nl ++ "--- Intentando verificar la firma con un mensaje ALTERADO: '"
     ++ text ++ "' ---".

Definition linea_fin : str :=
  nl ++ "🎉 Proceso de firma y verificación digital con RSA completado.".

(** The lines paso 6 and paso 7 report for an outcome of the verification
    call that the [except] clause handles. *)
Definition reporte_paso6 (outcome : Result unit) : list str :=
  match outcome with
  | Return _ =>
      [nl ++ "✅ Firma verificada con éxito. El mensaje es auténtico y no ha sido alterado."]
  | Raise e =>
      [nl ++ "❌ ERROR: La firma no es válida. Esto podría indicar que el mensaje fue alterado o que la firma es falsa. Detalles: "
          ++ exc_str e]
  end.

Definition reporte_paso7 (outcome : Result unit) : list str :=
  match outcome with
  | Return _ =>
      ["⚠️ ¡Advertencia! La firma ES VÁLIDA para el mensaje alterado. Esto NO debería ocurrir."]
  | Raise e =>
      ["🛑 Alerta: La firma es INVÁLIDA para el mensaje alterado. Esto es lo esperado y demuestra que la firma digital detectó la manipulación.";
       "Error específico: " ++ exc_str e]
  end.

(** Whether an outcome gets past the [except Exception] clause. *)
Definition escapes (outcome : Result unit) : bool :=
  match outcome with
  | Return _ => false
  | Raise e => negb (isinstance_Exception e)
  end.

(** The signature a key gives for [data] in state [s] (empty if signing
    raised). *)
Definition signature_of (private_key : RSAPrivateKey) (s : LibState)
    (data : bytes) : bytes :=
  match fst (rsa_sign private_key data (PSS (MGF1 SHA256) MAX_LENGTH) SHA256 s) with
  | Return signature => signature
  | Raise _ => []
  end.

End Runs.

(** All octets, and all octet strings of a given length. *)
Definition all_octets : list Byte.byte :=
  flat_map (fun n => match Byte.of_N (N.of_nat n) with
                     | Some c => [c]
                     | None => []
                     end)
           (seq 0 256).

Fixpoint octet_strings (n : nat) : list bytes :=
  match n with
  | O => [[]]
  | S k => flat_map (fun c => map (cons c) (octet_strings k)) all_octets
  end.

(** ** The package, modelled

    Modelled from the spec: the [cryptography] package is not under src/.
    The specification names what its Signer and its Verifier compute: RSA
    signatures with PSS padding, the mask generation function MGF1 over
    SHA-256, a random salt of maximal length, over a SHA-256 digest of the
    message, and signatures as long as the modulus.  [RSAPSS] is that
    scheme, RSASSA-PSS of PKCS #1, behind the interface [Cryptography];
    every definition of the module is part of this model.  Two things stay
    parameters, as the specification leaves them to the library: the
    digest functions, and the Key Generator's search for primes. *)
Module RSAPSS.

Local Open Scope list_scope.

(** *** Octet strings *)

(** Modelled from the spec: the octet strings of the scheme, zero padding
    first. *)

Definition zero_octets (n : nat) : bytes := repeat Byte.x00 n.

Definition octet (x : Z) : Byte.byte :=
  match Byte.of_N (Z.to_N (x mod 256)) with
  | Some c => c
  | None => Byte.x00
  end.

(** Modelled from the spec: OS2IP and I2OSP, big-endian octet string to
    integer and back. *)
Fixpoint OS2IP (data : bytes) : Z :=
  match data with
  | [] => 0
  | x :: rest => Z.of_N (Byte.to_N x) * 256 ^ Z.of_nat (List.length rest) + OS2IP rest
  end%Z.

Fixpoint I2OSP (x : Z) (len : nat) : bytes :=
  match len with
  | O => []
  | S k => octet (x / 256 ^ Z.of_nat k) :: I2OSP (x mod 256 ^ Z.of_nat k) k
  end%Z.

(** Modelled from the spec: bitwise exclusive or of two octets, and of a
    string with a mask (the mask is as long as the string wherever the
    scheme uses it). *)
Definition xor_octet (a c : Byte.byte) : Byte.byte :=
  let '(a0, (a1, (a2, (a3, (a4, (a5, (a6, a7))))))) := Byte.to_bits a in
  let '(c0, (c1, (c2, (c3, (c4, (c5, (c6, c7))))))) := Byte.to_bits c in
  Byte.of_bits (xorb a0 c0, (xorb a1 c1, (xorb a2 c2, (xorb a3 c3,
               (xorb a4 c4, (xorb a5 c5, (xorb a6 c6, xorb a7 c7))))))).

Fixpoint xor_octets (data mask : bytes) : bytes :=
  match data, mask with
  | x :: data', m :: mask' => xor_octet x m :: xor_octets data' mask'
  | _, [] => data
  | [], _ => []
  end.

(** Modelled from the spec: setting the [c] leftmost (most significant)
    bits of an octet, and of a string, to zero; and the test for it. *)
Definition clear_top (c : nat) (x : Byte.byte) : Byte.byte :=
  let '(x0, (x1, (x2, (x3, (x4, (x5, (x6, x7))))))) := Byte.to_bits x in
  Byte.of_bits (x0 && (c <? 8), (x1 && (c <? 7), (x2 && (c <? 6), (x3 && (c <? 5),
               (x4 && (c <? 4), (x5 && (c <? 3), (x6 && (c <? 2), x7 && (c <? 1))))))))%nat.

Definition clear_leftmost (c : nat) (data : bytes) : bytes :=
  match data with
  | [] => []
  | x :: rest => clear_top c x :: rest
  end.

Definition leftmost_clear (c : nat) (data : bytes) : bool :=
  match data with
  | [] => true
  | x :: _ => Byte.eqb (clear_top c x) x
  end.

Fixpoint octets_eqb (a c : bytes) : bool :=
  match a, c with
  | [], [] => true
  | x :: a', y :: c' => Byte.eqb x y && octets_eqb a' c'
  | _, _ => false
  end.

(** *** Modular exponentiation *)

(** Modelled from the spec: the RSA operation, by square and multiply. *)
Fixpoint powmod_pos (a : Z) (e : positive) (n : Z) : Z :=
  match e with
  | xH => a mod n
  | xO e' => let r := powmod_pos a e' n in (r * r) mod n
  | xI e' => let r := powmod_pos a e' n in ((r * r) mod n * a) mod n
  end%Z.

Definition powmod (a e n : Z) : Z :=
  match e with
  | Z0 => (1 mod n)%Z
  | Zpos e' => powmod_pos a e' n
  | Zneg _ => 0%Z
  end.

(** *** Keys *)

(** Modelled from the spec: a private key is two primes and the two
    exponents; the public key is their product and the public exponent. *)
Record PrivateKey : Type := mkPrivateKey {
  prime1 : Z;
  prime2 : Z;
  public_exponent : Z;
  private_exponent : Z
}.

Record PublicKey : Type := mkPublicKey {
  modulus : Z;
  exponent : Z
}.

Definition modulus_of (K : PrivateKey) : Z := (prime1 K * prime2 K)%Z.

Definition public_of (K : PrivateKey) : PublicKey :=
  mkPublicKey (modulus_of K) (public_exponent K).

(** Modelled from the spec: the length of the modulus in bits, and of a
    bit string in octets. *)
Definition modBits (n : Z) : nat := Z.to_nat (Z.log2 n + 1).
Definition octets_of_bits (bits : nat) : nat := (bits + 7) / 8.

(** Modelled from the spec: what makes a key an RSA key, two distinct
    primes and exponents that are inverse to each other modulo [p - 1]
    and modulo [q - 1]. *)
Definition rsa_key (K : PrivateKey) : Prop :=
  Z.prime (prime1 K) /\ Z.prime (prime2 K) /\ prime1 K <> prime2 K
  /\ (0 < public_exponent K)%Z /\ (0 < private_exponent K)%Z
  /\ ((public_exponent K * private_exponent K) mod (prime1 K - 1) = 1)%Z
  /\ ((public_exponent K * private_exponent K) mod (prime2 K - 1) = 1)%Z.

(** *** The random source *)

(** Modelled from the spec: the randomness of the package is a stream of
    octets; drawing [k] octets takes the first [k] and leaves the rest. *)
Definition RandomSource : Type := nat -> Byte.byte.

Definition draw (k : nat) (s : RandomSource) : bytes * RandomSource :=
  (map s (seq 0 k), fun i => s (k + i)%nat).

Section Scheme.

(** Modelled from the spec: the digest functions (SHA-256 among them)
    and their output lengths in octets are parameters. *)
Variable digest : HashAlgorithm -> bytes -> bytes.
Variable digest_size : HashAlgorithm -> nat.

(** Modelled from the spec: MGF1, the mask generation function over a
    digest. *)
Definition MGF1_mask (alg : HashAlgorithm) (seed : bytes) (maskLen : nat) : bytes :=
  let hLen := digest_size alg in
  let count := if (hLen =? 0)%nat then O else ((maskLen + hLen - 1) / hLen)%nat in
  firstn maskLen
    (flat_map (fun i => digest alg (seed ++ I2OSP (Z.of_nat i) 4)) (seq 0 count)).

(** Modelled from the spec: the PSS padding, that is the EMSA-PSS encoding
    of a message with a given salt into [emBits] bits. *)
Definition emsa_pss_encode (alg mgf_alg : HashAlgorithm) (M salt : bytes)
    (emBits : nat) : option bytes :=
  let emLen := octets_of_bits emBits in
  let hLen := digest_size alg in
  let sLen := List.length salt in
  if (emLen <? hLen + sLen + 2)%nat then None
  else
    let mHash := digest alg M in
    let H := digest alg (zero_octets 8 ++ mHash ++ salt) in
    let PS := zero_octets (emLen - sLen - hLen - 2) in
    let DB := PS ++ [Byte.x01] ++ salt in
    let dbMask := MGF1_mask mgf_alg H (emLen - hLen - 1) in
    let maskedDB := clear_leftmost (8 * emLen - emBits) (xor_octets DB dbMask) in
    Some (maskedDB ++ H ++ [Byte.xbc]).

(** Modelled from the spec: EMSA-PSS verification of an encoded message
    against a message, for a salt of [sLen] octets. *)
Definition emsa_pss_verify (alg mgf_alg : HashAlgorithm) (M EM : bytes)
    (emBits sLen : nat) : bool :=
  let emLen := octets_of_bits emBits in
  let hLen := digest_size alg in
  if (emLen <? hLen + sLen + 2)%nat then false
  else if negb (List.length EM =? emLen)%nat then false
  else
    let maskedDB := firstn (emLen - hLen - 1) EM in
    let H := firstn hLen (skipn (emLen - hLen - 1) EM) in
    if negb (octets_eqb (skipn (emLen - 1) EM) [Byte.xbc]) then false
    else if negb (leftmost_clear (8 * emLen - emBits) maskedDB) then false
    else
      let dbMask := MGF1_mask mgf_alg H (emLen - hLen - 1) in
      let DB := clear_leftmost (8 * emLen - emBits) (xor_octets maskedDB dbMask) in
      let psLen := (emLen - hLen - sLen - 2)%nat in
      if negb (octets_eqb (firstn (psLen + 1) DB) (zero_octets psLen ++ [Byte.x01]))
      then false
      else
        let salt := skipn (psLen + 1) DB in
        let H' := digest alg (zero_octets 8 ++ digest alg M ++ salt) in
        octets_eqb H H'.

(** Modelled from the spec: the salt length a [salt_length] argument
    stands for; the maximal one is what the encoding leaves room for.
    The specification has the maximal length only; of the others, the
    length of the digest and a given number of octets are read as such,
    and detection of the length from the signature is left out (no salt
    length stands for [AUTO], so signing refuses it and verification
    rejects). *)
Definition salt_octets (sl : SaltLength) (emLen hLen : nat) : option nat :=
  match sl with
  | MAX_LENGTH => if (emLen <? hLen + 2)%nat then None else Some (emLen - hLen - 2)%nat
  | DIGEST_LENGTH => Some hLen
  | SaltOctets n => if (0 <=? n)%Z then Some (Z.to_nat n) else None
  | AUTO => None
  end.

(** Modelled from the spec: the Signer of the [cryptography] package
    ([private_key.sign], absent from src/).  The spec names the scheme:
    RSA-PSS padding, mask generation function MGF1 over the digest given,
    maximal salt length, over a digest of the message, with a random salt
    and a signature as long as the modulus (spec 2, 3, 4.2, glossary).
    The steps are those of RSASSA-PSS in PKCS #1: EMSA-PSS encoding with a
    salt drawn from the random source, then the RSA private operation on
    the encoded message, then I2OSP to the length of the modulus. *)
Definition sign (K : PrivateKey) (data : bytes) (pad : AsymmetricPadding)
    (alg : HashAlgorithm) (s : RandomSource) : Result bytes * RandomSource :=
  let n := modulus_of K in
  let emBits := (modBits n - 1)%nat in
  match pad with
  | PSS (MGF1 mgf_alg) sl =>
      match salt_octets sl (octets_of_bits emBits) (digest_size alg) with
      | Some sLen =>
          let r := draw sLen s in
          match emsa_pss_encode alg mgf_alg data (fst r) emBits with
          | Some EM =>
              if (OS2IP EM <? n)%Z
              then (Return (I2OSP (powmod (OS2IP EM) (private_exponent K) n)
                              (octets_of_bits (modBits n))),
                    snd r)
              else (Raise (mkExc ValueError "message representative out of range"),
                    snd r)
          | None => (Raise (mkExc ValueError "encoding error"), snd r)
          end
      | None => (Raise (mkExc ValueError "invalid salt length"), s)
      end
  | PKCS1v15 => (Raise (mkExc UnsupportedAlgorithm "padding not modelled"), s)
  end.

(** Modelled from the spec: the Verifier of the [cryptography] package
    ([public_key.verify], absent from src/): it confirms or rejects under
    the same padding and digest scheme, raising InvalidSignature on
    rejection, and has no effect on the random source (spec 2, 4.3).  The
    steps are those of RSASSA-PSS verification in PKCS #1: length check,
    the RSA public operation, I2OSP, then EMSA-PSS verification. *)
Definition verify (P : PublicKey) (signature data : bytes)
    (pad : AsymmetricPadding) (alg : HashAlgorithm) (s : RandomSource)
    : Result unit * RandomSource :=
  let n := modulus P in
  let emBits := (modBits n - 1)%nat in
  let emLen := octets_of_bits emBits in
  let invalid := (Raise (mkExc InvalidSignature ""), s) in
  match pad with
  | PSS (MGF1 mgf_alg) sl =>
      match salt_octets sl emLen (digest_size alg) with
      | Some sLen =>
          if negb (List.length signature =? octets_of_bits (modBits n))%nat
          then invalid
          else if negb (OS2IP signature <? n)%Z then invalid
          else
            let m := powmod (OS2IP signature) (exponent P) n in
            if negb (m <? 256 ^ Z.of_nat emLen)%Z then invalid
            else if emsa_pss_verify alg mgf_alg data (I2OSP m emLen) emBits sLen
            then (Return tt, s)
            else invalid
      | None => invalid
      end
  | PKCS1v15 => (Raise (mkExc UnsupportedAlgorithm "padding not modelled"), s)
  end.

(** Modelled from the spec: the [cryptography] package as the script uses
    it.  The Signer and the Verifier are the two definitions above; the
    public key is derived from the private key; the key size is the
    length of the modulus in bits.  The Key Generator (the search for two
    primes) is the parameter [keygen]. *)
Definition lib
    (keygen : Z -> Z -> Backend -> RandomSource ->
              Result PrivateKey * RandomSource)
    : Cryptography := {|
  RSAPrivateKey := PrivateKey;
  RSAPublicKey := PublicKey;
  LibState := RandomSource;
  rsa_generate_private_key := keygen;
  rsa_public_key := public_of;
  key_size := fun K => Z.of_nat (modBits (modulus_of K));
  rsa_sign := sign;
  rsa_verify := verify
|}.

End Scheme.

(** Modelled from the spec: what the Signer and the Verifier need of the
    Key Generator.  The keys it returns are RSA keys; and, for the length
    of signatures, their modulus has the number of bits asked for. *)
Definition generates_rsa_keys
    (keygen : Z -> Z -> Backend -> RandomSource ->
              Result PrivateKey * RandomSource) : Prop :=
  forall e bits be s K s', keygen e bits be s = (Return K, s') -> rsa_key K.

Definition generates_requested_size
    (keygen : Z -> Z -> Backend -> RandomSource ->
              Result PrivateKey * RandomSource) : Prop :=
  forall e bits be s K s',
    keygen e bits be s = (Return K, s') ->
    Z.of_nat (modBits (modulus_of K)) = bits.

End RSAPSS.

(** ** Instances of the scheme to run it on

    A digest of one octet with a key of 26 bits, on which signing and
    verifying are computed in full; and a digest of 32 octets with a key
    of 2048 bits, for the lengths. *)
Module PSSExamples.

Import RSAPSS.
Local Open Scope Z_scope.

(** A random source, fixed once and for all. *)
Definition source : RandomSource := fun i => octet (Z.of_nat (i * 37 + 5)).

(** A checksum of one octet, standing for a digest. *)
Definition checksum (data : bytes) : Z :=
  fold_left (fun h c => (h * 31 + Z.of_N (Byte.to_N c) + 7) mod 256) data 1.

Definition digest1 (_ : HashAlgorithm) (data : bytes) : bytes :=
  [octet (checksum data)].
Definition digest1_size (_ : HashAlgorithm) : nat := 1.

(** The primes 8009 and 8011, with the exponents 65537 and its inverse. *)
Definition small_key : PrivateKey := mkPrivateKey 8009 8011 65537 18933353.

(** A generator that answers every request with the small key. *)
Definition small_keygen (_ _ : Z) (_ : Backend) (s : RandomSource)
    : Result PrivateKey * RandomSource :=
  (Return small_key, s).

Definition small_lib : Cryptography := lib digest1 digest1_size small_keygen.
Definition small_world0 : @World small_lib := @mkWorld small_lib [] source [].

Definition digest32 (_ : HashAlgorithm) (data : bytes) : bytes :=
  repeat (octet (checksum data)) 32.
Definition digest32_size (_ : HashAlgorithm) : nat := 32.

(** A key whose modulus has 2048 bits. *)
Definition key2048 : PrivateKey :=
  mkPrivateKey
    148255900367630700590299616127161034950961682912359576120321234609200505250189376236003037525096633107303390990014754769555215630835246150981872342956512906677480733373709229891758570885231543308441147401269424812468295285115206730233936993986956183150519781127403297827661138835466837383042317496549648629761
    172269836384535811264943816805821111643654590144459835645222167324901168047048353915843827290856565562163633118787390550993397807676228925818969569192051834079061808327809407697984664565428678405443426937682722691854420568703011148601634015583115510257731400136454222352227662317272249554602080573720683872257
    65537
    5598957308886525777629732332104934625777299895257734939381057080478372242853357232011467587256559288935078170296185222415191501973942638336969090747778778765030649185540792190470564991415444315054534006702330998827172688861980675874824069258076947678880697210289039340445097965271351950982875375595583142230461972007483710600072220945736365728785266033421532035714705802189377365383914404969688074023421269124716632138297076275290183716988231712656961807777793.

(** A generator that has this one key, and answers with it the request
    for the public exponent 65537 and 2048 bits. *)
Definition keygen2048 (e bits : Z) (_ : Backend) (s : RandomSource)
    : Result PrivateKey * RandomSource :=
  if (e =? 65537) && (bits =? 2048)
  then (Return key2048, s)
  else (Raise (mkExc ValueError "no key for these parameters"), s).

Definition lib2048 : Cryptography := lib digest32 digest32_size keygen2048.
Definition world2048 : @World lib2048 := @mkWorld lib2048 [] source [].

End PSSExamples.

(** * Properties *)

Lemma skipn_length_app {A} (l l' : list A) :
  skipn (List.length l) (l ++ l')%list = l'.
Proof. induction l as [|x l IH]; simpl; auto. Qed.

Lemma pair_of_fst {A B} (p : A * B) (a : A) : fst p = a -> p = (a, snd p).
Proof. intros <-. apply surjective_pairing. Qed.

Lemma in_all_octets c : In c all_octets.
Proof.
  unfold all_octets. apply in_flat_map.
  exists (N.to_nat (Byte.to_N c)). split.
  - apply in_seq. pose proof (Byte.to_N_bounded c). lia.
  - rewrite Nnat.N2Nat.id, Byte.of_to_N. left. reflexivity.
Qed.

Lemma decode_message :
  decode (b "Este es el mensaje que quiero firmar digitalmente.")
  = Return "Este es el mensaje que quiero firmar digitalmente.".
Proof. reflexivity. Qed.

Lemma decode_message_alterado :
  decode (b "Este es un mensaje modificado.")
  = Return "Este es un mensaje modificado.".
Proof. reflexivity. Qed.

(** The built-ins on a few inputs, as CPython answers them. *)
Example repr_bytes_escapes :
  repr_bytes [Byte.x00; Byte.xff; Byte.x0a; Byte.x09; Byte.x0d; Byte.x5c;
              Byte.x7f; Byte.x7e; Byte.x1f; Byte.xab; Byte.x41]
  = "b'\x00\xff\n\t\r\\\x7f~\x1f\xabA'".
Proof. reflexivity. Qed.

Example repr_bytes_single_quote :
  repr_bytes (b "it's") = String "b" (String dquote ("it's" ++ String dquote "")).
Proof. reflexivity. Qed.

Example slice_to_short : slice_to 30 (b "abc") = b "abc".
Proof. reflexivity. Qed.

Example decode_truncated_sequence :
  decode [Byte.x61; Byte.xc3] = Raise (mkExc UnicodeDecodeError "'utf-8' codec can't decode").
Proof. reflexivity. Qed.

Example decode_surrogate_rejected :
  decode [Byte.xed; Byte.xa0; Byte.x80]
  = Raise (mkExc UnicodeDecodeError "'utf-8' codec can't decode").
Proof. reflexivity. Qed.

(** The script run on the small instance, from an empty world. *)
Example firma_rsa_toy_run :
  fst (@firma_rsa Toy.lib Toy.world0) = Return tt
  /\ stdout (snd (@firma_rsa Toy.lib Toy.world0))
     = ["🚀 Iniciando el proceso de firma digital con RSA...";
        "✅ Par de claves RSA (privada y pública) generado con éxito.";
        nl ++ "📝 Mensaje original: 'Este es el mensaje que quiero firmar digitalmente.'";
        "✍️ Firma digital creada (primeros 30 bytes para referencia): b'\x00\x00\x00\x00\x00\x00\x00\x00\x00\x00\x00\x00\x00\x00\x00\x00\x00\x00\x00\x00\x00\x00\x00\x00\x00\x00\x00\x00\x00\x00'...";
        nl ++ "✅ Firma verificada con éxito. El mensaje es auténtico y no ha sido alterado.";
        nl ++ "--- Intentando verificar la firma con un mensaje ALTERADO: 'Este es un mensaje modificado.' ---";
        "🛑 Alerta: La firma es INVÁLIDA para el mensaje alterado. Esto es lo esperado y demuestra que la firma digital detectó la manipulación.";
        "Error específico: ";
        nl ++ "🎉 Proceso de firma y verificación digital con RSA completado."].
Proof. split; vm_compute; reflexivity. Qed.

(** Unfold the statements of the script down to the package's operations. *)
Ltac script_unfold :=
  cbv beta delta [firma_rsa paso3 paso4 paso5 paso6 paso7
                  generate_private_key public_key_of sign verify
                  try_except_Exception print bind ret lift] in *.

Ltac world_simpl := cbn [fst snd stdout lib_state calls] in *.

Section StepFacts.

Context {L : Cryptography}.

Abbreviation pss := (PSS (MGF1 SHA256) MAX_LENGTH).

(** Paso 5 in one equation. *)
Lemma paso5_run private_key message w :
  let out := rsa_sign private_key message pss SHA256 (lib_state w) in
  let cs := (calls w ++ [CallSign private_key message pss SHA256 (fst out)])%list in
  paso5 private_key message w =
  match fst out with
  | Return signature =>
      (Return signature,
       mkWorld (stdout w ++ [linea_firma signature])%list (snd out) cs)
  | Raise e => (Raise e, mkWorld (stdout w) (snd out) cs)
  end.
Proof.
  script_unfold. cbv zeta.
  destruct (rsa_sign private_key message pss SHA256 (lib_state w)) as [[sg|e] s'];
    reflexivity.
Qed.

(** Paso 6 in one equation: the call, then the report; an exception
    outside [Exception] goes through. *)
Lemma paso6_run public_key signature message w :
  let out := rsa_verify public_key signature message pss SHA256 (lib_state w) in
  let cs := (calls w ++ [CallVerify public_key signature message pss SHA256
                           (fst out)])%list in
  paso6 public_key signature message w =
  if escapes (fst out)
  then (fst out, mkWorld (stdout w) (snd out) cs)
  else (Return tt,
        mkWorld (stdout w ++ reporte_paso6 (fst out))%list (snd out) cs).
Proof.
  script_unfold. cbv zeta.
  destruct (rsa_verify public_key signature message pss SHA256 (lib_state w))
    as [[[]|e] s']; world_simpl; cbn [escapes]; [reflexivity|].
  destruct (isinstance_Exception e); reflexivity.
Qed.

(** Paso 7 likewise, after the line that announces the altered message. *)
Lemma paso7_run public_key signature message_alterado text w :
  decode message_alterado = Return text ->
  let out := rsa_verify public_key signature message_alterado pss SHA256
               (lib_state w) in
  let cs := (calls w ++ [CallVerify public_key signature message_alterado pss
                           SHA256 (fst out)])%list in
  paso7 public_key signature message_alterado w =
  if escapes (fst out)
  then (fst out, mkWorld (stdout w ++ [linea_anuncio text])%list (snd out) cs)
  else (Return tt,
        mkWorld (stdout w ++ linea_anuncio text :: reporte_paso7 (fst out))%list
                (snd out) cs).
Proof.
  intros Hd. script_unfold. rewrite Hd. cbv zeta. world_simpl.
  destruct (rsa_verify public_key signature message_alterado pss SHA256 (lib_state w))
    as [[[]|e] s']; world_simpl; cbn [escapes reporte_paso7].
  - rewrite <- app_assoc. reflexivity.
  - destruct (isinstance_Exception e); cbn [negb]; [|reflexivity].
    rewrite <- !app_assoc. reflexivity.
Qed.

(** The script up to the signature: either key generation raised, or the
    run continues with paso 5 to paso 7 in the world the first four
    statements leave. *)
Lemma firma_rsa_run w :
  let g := rsa_generate_private_key 65537 2048 default_backend (lib_state w) in
  let gen := CallGenerate 65537 2048 default_backend (fst g) in
  firma_rsa w =
  match fst g with
  | Raise e =>
      (Raise e,
       mkWorld (stdout w ++ firstn 1 lineas_inicio)%list (snd g)
               (calls w ++ [gen])%list)
  | Return private_key =>
      let public_key := rsa_public_key private_key in
      let message := b "Este es el mensaje que quiero firmar digitalmente." in
      bind (paso5 private_key message) (fun signature =>
        bind (paso6 public_key signature message) (fun _ =>
          bind (paso7 public_key signature (b "Este es un mensaje modificado."))
               (fun _ => print linea_fin)))
        (mkWorld (stdout w ++ lineas_inicio)%list (snd g)
                 (calls w ++ [gen; CallPublicKey private_key public_key])%list)
  end.
Proof.
  cbv beta delta [firma_rsa paso3 paso4 generate_private_key public_key_of
                  print ret lift].
  cbv zeta. unfold bind. world_simpl.
  destruct (rsa_generate_private_key 65537 2048 default_backend (lib_state w))
    as [[sk|e] s1]; world_simpl; [|reflexivity].
  rewrite decode_message. world_simpl.
  rewrite <- !app_assoc. reflexivity.
Qed.

(** A run in which key generation and signing both return: the two
    verification outcomes [v1] and [v2] decide everything that follows. *)
Lemma firma_rsa_signed w private_key s1 signature s2 :
  rsa_generate_private_key 65537 2048 default_backend (lib_state w)
    = (Return private_key, s1) ->
  rsa_sign private_key (b "Este es el mensaje que quiero firmar digitalmente.")
    pss SHA256 s1 = (Return signature, s2) ->
  let public_key := rsa_public_key private_key in
  let message := b "Este es el mensaje que quiero firmar digitalmente." in
  let message_alterado := b "Este es un mensaje modificado." in
  let v1 := rsa_verify public_key signature message pss SHA256 s2 in
  let v2 := rsa_verify public_key signature message_alterado pss SHA256 (snd v1) in
  let out5 := (lineas_inicio ++ [linea_firma signature])%list in
  let cs5 := [CallGenerate 65537 2048 default_backend (Return private_key);
              CallPublicKey private_key public_key;
              CallSign private_key message pss SHA256 (Return signature);
              CallVerify public_key signature message pss SHA256 (fst v1)] in
  let c2 := CallVerify public_key signature message_alterado pss SHA256 (fst v2) in
  let anuncio := linea_anuncio "Este es un mensaje modificado." in
  firma_rsa w =
  if escapes (fst v1)
  then (fst v1, mkWorld (stdout w ++ out5)%list (snd v1) (calls w ++ cs5)%list)
  else if escapes (fst v2)
  then (fst v2,
        mkWorld (stdout w ++ out5 ++ reporte_paso6 (fst v1) ++ [anuncio])%list
                (snd v2) (calls w ++ cs5 ++ [c2])%list)
  else (Return tt,
        mkWorld (stdout w ++ out5 ++ reporte_paso6 (fst v1) ++ anuncio
                   :: reporte_paso7 (fst v2) ++ [linea_fin])%list
                (snd v2) (calls w ++ cs5 ++ [c2])%list).
Proof.
  intros Hg Hs. cbv zeta.
  rewrite firma_rsa_run. cbv zeta. rewrite Hg. world_simpl.
  unfold bind at 1. rewrite paso5_run. cbv zeta. world_simpl.
  rewrite Hs. world_simpl.
  unfold bind at 1. rewrite paso6_run. cbv zeta. world_simpl.
  destruct (rsa_verify (rsa_public_key private_key) signature
              (b "Este es el mensaje que quiero firmar digitalmente.")
              pss SHA256 s2) as [o1 s3].
  world_simpl.
  destruct (escapes o1) eqn:E1.
  - destruct o1 as [[]|e1]; [discriminate E1|].
    rewrite <- !app_assoc. reflexivity.
  - cbv iota. unfold bind at 1.
    rewrite (paso7_run _ _ _ _ _ decode_message_alterado). cbv zeta. world_simpl.
    destruct (rsa_verify (rsa_public_key private_key) signature
                (b "Este es un mensaje modificado.") pss SHA256 s3) as [o2 s4].
    world_simpl.
    destruct (escapes o2) eqn:E2.
    + destruct o2 as [[]|e2]; [discriminate E2|].
      rewrite <- !app_assoc. reflexivity.
    + cbv iota. unfold print. world_simpl. rewrite <- !app_assoc. reflexivity.
Qed.

End StepFacts.

(** ** The small instance obeys the laws *)
Module ToyFacts.

Import Toy.
Local Open Scope list_scope.
Local Open Scope Z_scope.

Lemma powmod_range a e n : 0 < n -> 0 <= powmod a e n < n.
Proof.
  intros Hn. destruct e; cbn [powmod]; apply Z.mod_pos_bound; assumption.
Qed.

Lemma digest_range data : 0 <= digest data < modulus.
Proof.
  unfold digest.
  assert (H : forall l h, 0 <= h < modulus ->
            0 <= fold_left (fun h c => (h * 256 + Z.of_N (Byte.to_N c)) mod modulus) l h
            < modulus).
  { induction l as [|c l IH]; intros h Hh; cbn [fold_left]; [exact Hh|].
    apply IH. apply Z.mod_pos_bound. reflexivity. }
  apply H. unfold modulus. lia.
Qed.

(** Signing then verifying is the identity on residues: checked on every
    residue of the modulus. *)
Lemma rsa_inverse h :
  0 <= h < modulus ->
  powmod (powmod h private_exponent modulus) public_exponent modulus = h.
Proof.
  intros Hh.
  assert (Hall : forallb
            (fun i => powmod (powmod (Z.of_nat i) private_exponent modulus)
                        public_exponent modulus =? Z.of_nat i)
            (seq 0 3233) = true) by (vm_compute; reflexivity).
  rewrite forallb_forall in Hall.
  specialize (Hall (Z.to_nat h)).
  rewrite Z2Nat.id in Hall by lia.
  apply Z.eqb_eq, Hall, in_seq. unfold modulus in Hh. lia.
Qed.

Lemma to_N_octet x : Z.of_N (Byte.to_N (octet x)) = x mod 256.
Proof.
  unfold octet.
  assert (Hb : 0 <= x mod 256 < 256) by (apply Z.mod_pos_bound; lia).
  destruct (Byte.of_N (Z.to_N (x mod 256))) as [c|] eqn:E.
  - apply Byte.to_of_N in E. rewrite E. lia.
  - apply Byte.of_N_None_iff in E. lia.
Qed.

Lemma OS2IP_snoc l c : OS2IP (l ++ [c]) = OS2IP l * 256 + Z.of_N (Byte.to_N c).
Proof. unfold OS2IP. rewrite fold_left_app. reflexivity. Qed.

Lemma OS2IP_I2OSP len : forall x, OS2IP (I2OSP x len) = x mod 256 ^ Z.of_nat len.
Proof.
  induction len as [|k IH]; intros x.
  - cbn [I2OSP Z.of_nat]. rewrite Z.pow_0_r, Z.mod_1_r. reflexivity.
  - cbn [I2OSP]. rewrite OS2IP_snoc, IH, to_N_octet.
    rewrite Nat2Z.inj_succ, Z.pow_succ_r by lia.
    rewrite (Z.rem_mul_r x 256 (256 ^ Z.of_nat k)) by lia. lia.
Qed.

Lemma length_I2OSP len : forall x, List.length (I2OSP x len) = len.
Proof.
  induction len as [|k IH]; intros x; cbn [I2OSP]; [reflexivity|].
  rewrite length_app, IH. cbn [List.length]. lia.
Qed.

Lemma generate_inv e size be s k s' :
  generate e size be s = (Return k, s') ->
  e = 65537 /\ 1024 <= size /\ k = mkKey (Z.to_N size).
Proof.
  unfold generate.
  destruct ((e =? Z.pos Toy.public_exponent) && (1024 <=? size))%bool eqn:E;
    [|discriminate].
  apply andb_prop in E as [E1 E2].
  apply Z.eqb_eq in E1. apply Z.leb_le in E2.
  intros H. injection H as <- _. auto.
Qed.

Lemma key_size_law : @KeySizeLaw lib.
Proof.
  intros e size be s k s' H. apply generate_inv in H as (_ & Hs & ->).
  cbn [key_size lib bits]. lia.
Qed.

Lemma signature_length_law : @SignatureLengthLaw lib.
Proof.
  intros k data pad alg s sg s' H. cbn [rsa_sign lib] in H. unfold sign_with in H.
  remember (powmod (digest data) private_exponent modulus) as x eqn:Hx.
  clear Hx. injection H as <- _. rewrite length_I2OSP. unfold octets_of. cbn [key_size lib].
  rewrite N_nat_Z, N2Z.inj_div, N2Z.inj_add. reflexivity.
Qed.

Lemma sign_verify_law : @SignVerifyLaw lib.
Proof.
  intros e size be s0 k s1 Hg data pad alg s sg s' Hs s''.
  apply generate_inv in Hg as (_ & Hsize & ->).
  cbn [rsa_sign lib] in Hs. unfold sign_with in Hs.
  pose proof (powmod_range (digest data) private_exponent modulus eq_refl) as Hr.
  pose proof (rsa_inverse (digest data) (digest_range data)) as Hinv.
  remember (powmod (digest data) private_exponent modulus) as x eqn:Hx.
  clear Hx. injection Hs as <- _.
  cbn [rsa_verify rsa_public_key lib]. unfold verify_with, verify_exp.
  rewrite OS2IP_I2OSP.
  assert (Hlen : 2 <= Z.of_nat (octets_of (mkKey (Z.to_N size)))).
  { unfold octets_of. cbn [bits]. rewrite N_nat_Z, N2Z.inj_div, N2Z.inj_add.
    rewrite Z2N.id by lia. change (Z.of_N 7) with 7. change (Z.of_N 8) with 8.
    apply Z.div_le_lower_bound; lia. }
  rewrite Z.mod_small.
  - rewrite Hinv, Z.eqb_refl. reflexivity.
  - split; [lia|].
    apply Z.lt_le_trans with (256 ^ 2); [unfold modulus in Hr; lia|].
    apply Z.pow_le_mono_r; lia.
Qed.

Lemma verify_raises_exception_law : @VerifyRaisesExceptionLaw lib.
Proof.
  intros k sg data pad alg s e. cbn [rsa_verify lib].
  unfold verify_with, verify_exp.
  destruct (_ =? _); cbn [fst]; [discriminate|].
  intros H. injection H as <-. reflexivity.
Qed.

Lemma verify_pure_law : @VerifyPureLaw lib.
Proof.
  intros k sg data pad alg s. cbn [rsa_verify lib].
  unfold verify_with, verify_exp.
  destruct (_ =? _); reflexivity.
Qed.

Lemma mismatch_verify_raises_exception_law :
  @VerifyRaisesExceptionLaw lib_mismatch.
Proof.
  intros k sg data pad alg s e. cbn [rsa_verify lib_mismatch].
  unfold verify_exp.
  destruct (_ =? _); cbn [fst]; [discriminate|].
  intros H. injection H as <-. reflexivity.
Qed.

Lemma mismatch_verify_pure_law : @VerifyPureLaw lib_mismatch.
Proof.
  intros k sg data pad alg s. cbn [rsa_verify lib_mismatch].
  unfold verify_exp.
  destruct (_ =? _); reflexivity.
Qed.

End ToyFacts.

(** ** What the script guarantees *)

Section Helpers.

Context {L : Cryptography}.

Lemma printed_of {A} (c : Script A) w l :
  stdout (snd (c w)) = (stdout w ++ l)%list -> printed c w = l.
Proof. unfold printed. intros ->. apply skipn_length_app. Qed.

Lemma called_of {A} (c : Script A) w l :
  calls (snd (c w)) = (calls w ++ l)%list -> called c w = l.
Proof. unfold called. intros ->. apply skipn_length_app. Qed.

(** When paso 5 returns, the package's signing operation returned that
    signature in the world's state. *)
Lemma paso5_returns private_key message w signature :
  fst (paso5 private_key message w) = Return signature ->
  fst (rsa_sign private_key message (PSS (MGF1 SHA256) MAX_LENGTH) SHA256
         (lib_state w)) = Return signature
  /\ stdout (snd (paso5 private_key message w))
     = (stdout w ++ [linea_firma signature])%list.
Proof.
  rewrite paso5_run. cbv zeta.
  destruct (rsa_sign private_key message (PSS (MGF1 SHA256) MAX_LENGTH) SHA256
              (lib_state w)) as [[sg|e] s']; world_simpl; intros H.
  - injection H as ->. split; reflexivity.
  - discriminate H.
Qed.

(** What a run that got its signature returned, printed, called and left
    behind, read off [firma_rsa_signed]. *)
Lemma firma_rsa_signed_facts w private_key s1 signature s2 :
  rsa_generate_private_key 65537 2048 default_backend (lib_state w)
    = (Return private_key, s1) ->
  rsa_sign private_key (b "Este es el mensaje que quiero firmar digitalmente.")
    (PSS (MGF1 SHA256) MAX_LENGTH) SHA256 s1 = (Return signature, s2) ->
  let public_key := rsa_public_key private_key in
  let message := b "Este es el mensaje que quiero firmar digitalmente." in
  let message_alterado := b "Este es un mensaje modificado." in
  let v1 := rsa_verify public_key signature message
              (PSS (MGF1 SHA256) MAX_LENGTH) SHA256 s2 in
  let v2 := rsa_verify public_key signature message_alterado
              (PSS (MGF1 SHA256) MAX_LENGTH) SHA256 (snd v1) in
  fst (firma_rsa w)
    = (if escapes (fst v1) then fst v1
       else if escapes (fst v2) then fst v2 else Return tt)
  /\ printed firma_rsa w
     = (lineas_inicio ++ linea_firma signature ::
          (if escapes (fst v1) then []
           else reporte_paso6 (fst v1)
                  ++ linea_anuncio "Este es un mensaje modificado." ::
                     (if escapes (fst v2) then []
                      else reporte_paso7 (fst v2) ++ [linea_fin])))%list
  /\ called firma_rsa w
     = ([CallGenerate 65537 2048 default_backend (Return private_key);
         CallPublicKey private_key public_key;
         CallSign private_key message (PSS (MGF1 SHA256) MAX_LENGTH) SHA256
           (Return signature);
         CallVerify public_key signature message
           (PSS (MGF1 SHA256) MAX_LENGTH) SHA256 (fst v1)]
          ++ (if escapes (fst v1) then []
              else [CallVerify public_key signature message_alterado
                      (PSS (MGF1 SHA256) MAX_LENGTH) SHA256 (fst v2)]))%list
  /\ lib_state (snd (firma_rsa w))
     = (if escapes (fst v1) then snd v1 else snd v2).
Proof.
  intros Hg Hs. cbv zeta.
  pose proof (firma_rsa_signed w private_key s1 signature s2 Hg Hs) as R.
  cbv zeta in R.
  destruct (escapes (fst (rsa_verify (rsa_public_key private_key) signature
              (b "Este es el mensaje que quiero firmar digitalmente.")
              (PSS (MGF1 SHA256) MAX_LENGTH) SHA256 s2))).
  - repeat split.
    + rewrite R. reflexivity.
    + apply printed_of. rewrite R. cbn [snd stdout].
      rewrite <- ?app_assoc. reflexivity.
    + apply called_of. rewrite R. cbn [snd calls]. rewrite app_nil_r. reflexivity.
    + rewrite R. reflexivity.
  - destruct (escapes (fst (rsa_verify (rsa_public_key private_key) signature
                (b "Este es un mensaje modificado.")
                (PSS (MGF1 SHA256) MAX_LENGTH) SHA256 _))).
    + repeat split.
      * rewrite R. reflexivity.
      * apply printed_of. rewrite R. cbn [snd stdout].
        rewrite <- ?app_assoc. reflexivity.
      * apply called_of. rewrite R. reflexivity.
      * rewrite R. reflexivity.
    + repeat split.
      * rewrite R. reflexivity.
      * apply printed_of. rewrite R. cbn [snd stdout].
        rewrite <- ?app_assoc. reflexivity.
      * apply called_of. rewrite R. reflexivity.
      * rewrite R. reflexivity.
Qed.

(** The calls of a run, whatever the package answers: key generation
    first; then, while each call returns, the public key, the signature,
    and the two verifications. *)
Lemma firma_rsa_called w :
  let g := rsa_generate_private_key 65537 2048 default_backend (lib_state w) in
  called firma_rsa w =
  CallGenerate 65537 2048 default_backend (fst g) ::
  match fst g with
  | Raise _ => []
  | Return private_key =>
      let public_key := rsa_public_key private_key in
      let message := b "Este es el mensaje que quiero firmar digitalmente." in
      let message_alterado := b "Este es un mensaje modificado." in
      let sg := rsa_sign private_key message (PSS (MGF1 SHA256) MAX_LENGTH)
                  SHA256 (snd g) in
      CallPublicKey private_key public_key ::
      CallSign private_key message (PSS (MGF1 SHA256) MAX_LENGTH) SHA256 (fst sg) ::
      match fst sg with
      | Raise _ => []
      | Return signature =>
          let v1 := rsa_verify public_key signature message
                      (PSS (MGF1 SHA256) MAX_LENGTH) SHA256 (snd sg) in
          let v2 := rsa_verify public_key signature message_alterado
                      (PSS (MGF1 SHA256) MAX_LENGTH) SHA256 (snd v1) in
          CallVerify public_key signature message
            (PSS (MGF1 SHA256) MAX_LENGTH) SHA256 (fst v1) ::
          (if escapes (fst v1) then []
           else [CallVerify public_key signature message_alterado
                   (PSS (MGF1 SHA256) MAX_LENGTH) SHA256 (fst v2)])
      end
  end.
Proof.
  cbv zeta.
  destruct (rsa_generate_private_key 65537 2048 default_backend (lib_state w))
    as [[K|e] s1] eqn:Hg; world_simpl.
  - destruct (rsa_sign K (b "Este es el mensaje que quiero firmar digitalmente.")
                (PSS (MGF1 SHA256) MAX_LENGTH) SHA256 s1)
      as [[signature|e] s2] eqn:Hs; world_simpl.
    + destruct (firma_rsa_signed_facts w K s1 signature s2 Hg Hs)
        as (_ & _ & Hc & _).
      rewrite Hc. reflexivity.
    + apply called_of. rewrite firma_rsa_run. cbv zeta. rewrite Hg. world_simpl.
      unfold bind at 1. rewrite paso5_run. cbv zeta. world_simpl.
      rewrite Hs. world_simpl. rewrite <- app_assoc. reflexivity.
  - apply called_of. rewrite firma_rsa_run. cbv zeta. rewrite Hg. reflexivity.
Qed.

(** A key generated with the script's parameters signs with 256 octets. *)
Lemma generated_signature_length :
  KeySizeLaw -> SignatureLengthLaw ->
  forall s0 private_key s1,
    rsa_generate_private_key 65537 2048 default_backend s0
      = (Return private_key, s1) ->
    forall data pad alg s signature,
      fst (rsa_sign private_key data pad alg s) = Return signature ->
      List.length signature = 256%nat.
Proof.
  intros Hk Hl s0 private_key s1 Hg data pad alg s signature Hs.
  apply Hk in Hg.
  destruct (rsa_sign private_key data pad alg s) as [o s'] eqn:E.
  cbn [fst] in Hs. subst o.
  apply Hl in E. rewrite Hg in E. change ((2048 + 7) / 8)%Z with 256%Z in E.
  lia.
Qed.

End Helpers.

(** ** The model of the package

    Octet strings and integers, masks, the RSA permutation (by Fermat's
    little theorem), the encoding, and from these what the Signer and the
    Verifier of [RSAPSS] do. *)
Module RSAPSSFacts.

Import RSAPSS.
Local Open Scope list_scope.
Local Open Scope Z_scope.

(** *** Octet strings and integers *)

Lemma octet_value x : Z.of_N (Byte.to_N (octet x)) = x mod 256.
Proof.
  unfold octet.
  assert (Hb : 0 <= x mod 256 < 256) by (apply Z.mod_pos_bound; lia).
  destruct (Byte.of_N (Z.to_N (x mod 256))) as [c|] eqn:E.
  - apply Byte.to_of_N in E. rewrite E. lia.
  - apply Byte.of_N_None_iff in E. lia.
Qed.

Lemma octet_of_value c : octet (Z.of_N (Byte.to_N c)) = c.
Proof.
  unfold octet. pose proof (Byte.to_N_bounded c) as Hb.
  rewrite Z.mod_small by lia. rewrite N2Z.id, Byte.of_to_N. reflexivity.
Qed.

Lemma octet_range c : 0 <= Z.of_N (Byte.to_N c) < 256.
Proof. pose proof (Byte.to_N_bounded c). lia. Qed.

Lemma OS2IP_range data : 0 <= OS2IP data < 256 ^ Z.of_nat (List.length data).
Proof.
  induction data as [|x rest IH]; cbn [OS2IP List.length].
  - cbn. lia.
  - rewrite Nat2Z.inj_succ, Z.pow_succ_r by lia.
    pose proof (octet_range x).
    assert (0 < 256 ^ Z.of_nat (List.length rest)) by (apply Z.pow_pos_nonneg; lia).
    nia.
Qed.

Lemma length_of_I2OSP len : forall x, List.length (I2OSP x len) = len.
Proof.
  induction len as [|k IH]; intros x; cbn [I2OSP List.length]; [reflexivity|].
  rewrite IH. reflexivity.
Qed.

Lemma I2OSP_of_OS2IP data : I2OSP (OS2IP data) (List.length data) = data.
Proof.
  induction data as [|x rest IH]; cbn [OS2IP List.length I2OSP]; [reflexivity|].
  pose proof (OS2IP_range rest) as Hr. pose proof (octet_range x) as Hx.
  assert (Hpos : 0 < 256 ^ Z.of_nat (List.length rest))
    by (apply Z.pow_pos_nonneg; lia).
  rewrite Z.div_add_l by lia. rewrite (Z.div_small (OS2IP rest)) by lia.
  rewrite Z.add_0_r, octet_of_value.
  rewrite Z.add_comm, Z.mod_add by lia. rewrite Z.mod_small by lia.
  rewrite IH. reflexivity.
Qed.

Lemma OS2IP_of_I2OSP len : forall x,
  0 <= x < 256 ^ Z.of_nat len -> OS2IP (I2OSP x len) = x.
Proof.
  induction len as [|k IH]; intros x Hx; cbn [I2OSP OS2IP].
  - cbn in Hx. lia.
  - rewrite Nat2Z.inj_succ, Z.pow_succ_r in Hx by lia.
    assert (Hpos : 0 < 256 ^ Z.of_nat k) by (apply Z.pow_pos_nonneg; lia).
    rewrite length_of_I2OSP, octet_value.
    rewrite IH by (apply Z.mod_pos_bound; lia).
    rewrite Z.mod_small.
    + rewrite Z.mul_comm. symmetry. apply Z.div_mod. lia.
    + split; [apply Z.div_pos; lia|]. apply Z.div_lt_upper_bound; lia.
Qed.

Lemma octets_eqb_eq a : forall c, octets_eqb a c = true <-> a = c.
Proof.
  induction a as [|x a IH]; intros [|y c]; cbn [octets_eqb]; split;
    try reflexivity; try discriminate.
  - intros H. apply andb_prop in H as [Hx Ha].
    apply Byte.byte_dec_bl in Hx. apply IH in Ha. congruence.
  - intros H. injection H as -> ->. rewrite (Byte.byte_dec_lb eq_refl).
    apply IH. reflexivity.
Qed.

Lemma octets_eqb_refl a : octets_eqb a a = true.
Proof. apply octets_eqb_eq. reflexivity. Qed.


(** *** Masks and leftmost bits *)

Lemma xor_octet_involutive a m : xor_octet (xor_octet a m) m = a.
Proof.
  unfold xor_octet.
  rewrite <- (Byte.of_bits_to_bits a) at 2.
  destruct (Byte.to_bits a) as (a0 & a1 & a2 & a3 & a4 & a5 & a6 & a7).
  destruct (Byte.to_bits m) as (m0 & m1 & m2 & m3 & m4 & m5 & m6 & m7) eqn:Em.
  rewrite Byte.to_bits_of_bits.
  rewrite !xorb_assoc, !xorb_nilpotent, !xorb_false_r. reflexivity.
Qed.

Lemma xor_octets_involutive : forall data mask,
  xor_octets (xor_octets data mask) mask = data.
Proof.
  induction data as [|x data IH]; intros [|m mask]; cbn [xor_octets];
    try reflexivity.
  rewrite xor_octet_involutive, IH. reflexivity.
Qed.

Lemma length_xor_octets : forall data mask,
  List.length (xor_octets data mask) = List.length data.
Proof.
  induction data as [|x data IH]; intros [|m mask]; cbn [xor_octets List.length];
    try reflexivity.
  rewrite IH. reflexivity.
Qed.

Lemma length_clear_leftmost c data :
  List.length (clear_leftmost c data) = List.length data.
Proof. destruct data; reflexivity. Qed.

Lemma clear_top_xor c x m :
  clear_top c x = x ->
  clear_top c (xor_octet (clear_top c (xor_octet x m)) m) = x.
Proof.
  unfold clear_top, xor_octet.
  pose proof (Byte.of_bits_to_bits x) as Ex.
  destruct (Byte.to_bits x) as (x0 & x1 & x2 & x3 & x4 & x5 & x6 & x7).
  destruct (Byte.to_bits m) as (m0 & m1 & m2 & m3 & m4 & m5 & m6 & m7).
  subst x. rewrite !Byte.to_bits_of_bits.
  intros H. apply (f_equal Byte.to_bits) in H. rewrite !Byte.to_bits_of_bits in H.
  f_equal.
  injection H as H0 H1 H2 H3 H4 H5 H6 H7.
  do 8 (destruct c as [|c]; [cbn [Nat.ltb Nat.leb] in *;
    rewrite ?andb_true_r, ?andb_false_r in *; subst;
    rewrite ?xorb_assoc, ?xorb_nilpotent, ?xorb_false_r, ?xorb_false_l; reflexivity|]).
  cbn [Nat.ltb Nat.leb] in *.
  rewrite ?andb_true_r, ?andb_false_r in *; subst;
    rewrite ?xorb_assoc, ?xorb_nilpotent, ?xorb_false_r, ?xorb_false_l; reflexivity.
Qed.

Lemma clear_top_idempotent c x : clear_top c (clear_top c x) = clear_top c x.
Proof.
  unfold clear_top.
  destruct (Byte.to_bits x) as (x0 & x1 & x2 & x3 & x4 & x5 & x6 & x7).
  rewrite Byte.to_bits_of_bits.
  rewrite <- !andb_assoc, !andb_diag. reflexivity.
Qed.

Lemma clear_top_x00 c : clear_top c Byte.x00 = Byte.x00.
Proof. reflexivity. Qed.

Lemma clear_top_x01 c : (c <= 7)%nat -> clear_top c Byte.x01 = Byte.x01.
Proof.
  intros H. unfold clear_top. cbn [Byte.to_bits andb].
  replace (c <? 8)%nat with true by (symmetry; apply Nat.ltb_lt; lia).
  reflexivity.
Qed.

Lemma clear_top_bound c x :
  (c <= 8)%nat -> Z.of_N (Byte.to_N (clear_top c x)) < 2 ^ (8 - Z.of_nat c).
Proof.
  intros Hc.
  assert (Hall : forallb (fun k => forallb (fun y =>
                    Z.of_N (Byte.to_N (clear_top k y)) <? 2 ^ (8 - Z.of_nat k))
                    all_octets) (seq 0 9) = true) by (vm_compute; reflexivity).
  rewrite forallb_forall in Hall.
  specialize (Hall c ltac:(apply in_seq; lia)).
  rewrite forallb_forall in Hall.
  specialize (Hall x (in_all_octets x)).
  apply Z.ltb_lt. exact Hall.
Qed.

Lemma leftmost_clear_of_cleared c data :
  leftmost_clear c (clear_leftmost c data) = true.
Proof.
  destruct data as [|x rest]; [reflexivity|]. cbn [clear_leftmost leftmost_clear].
  rewrite clear_top_idempotent. apply Byte.byte_dec_lb. reflexivity.
Qed.

(** Masking, clearing, and masking again with the same mask gives back a
    string whose leftmost bits were clear. *)
Lemma unmask_masked c DB mask :
  leftmost_clear c DB = true ->
  clear_leftmost c (xor_octets (clear_leftmost c (xor_octets DB mask)) mask) = DB.
Proof.
  destruct DB as [|x DB]; intros H.
  - destruct mask; reflexivity.
  - cbn [leftmost_clear] in H. apply Byte.byte_dec_bl in H.
    destruct mask as [|m mask]; cbn [xor_octets clear_leftmost].
    + rewrite H, H. reflexivity.
    + rewrite (clear_top_xor c x m H), xor_octets_involutive. reflexivity.
Qed.

(** *** Lists *)

Lemma firstn_length_app {A} (l l' : list A) :
  firstn (List.length l) (l ++ l') = l.
Proof. induction l as [|x l IH]; cbn; [destruct l'|rewrite IH]; reflexivity. Qed.

Lemma length_zero_octets n : List.length (zero_octets n) = n.
Proof. apply repeat_length. Qed.

Lemma length_draw k s : List.length (fst (draw k s)) = k.
Proof. unfold draw. cbn [fst]. rewrite length_map, length_seq. reflexivity. Qed.

Lemma padding_bits emBits :
  (8 * octets_of_bits emBits - emBits <= 7)%nat
  /\ (emBits <= 8 * octets_of_bits emBits)%nat.
Proof.
  unfold octets_of_bits.
  pose proof (Nat.div_mod_eq (emBits + 7) 8) as E.
  pose proof (Nat.mod_upper_bound (emBits + 7) 8 ltac:(lia)) as B.
  lia.
Qed.


(** *** The RSA permutation *)

Lemma powmod_pos_spec a e n : powmod_pos a e n = a ^ Zpos e mod n.
Proof.
  induction e as [e IH|e IH|]; cbn [powmod_pos].
  - rewrite IH, Pos2Z.inj_xI.
    replace (2 * Z.pos e + 1) with (Z.succ (2 * Z.pos e)) by lia.
    rewrite Z.pow_succ_r, Z.pow_twice_r by lia.
    rewrite <- Zmult_mod, Zmult_mod_idemp_l. f_equal. ring.
  - rewrite IH, Pos2Z.inj_xO, Z.pow_twice_r, <- Zmult_mod. reflexivity.
  - rewrite Z.pow_1_r. reflexivity.
Qed.

Lemma powmod_spec a e n : 0 <= e -> powmod a e n = a ^ e mod n.
Proof.
  intros He. destruct e as [|e|e]; cbn [powmod]; [reflexivity| |lia].
  apply powmod_pos_spec.
Qed.

Lemma powmod_bounds a e n : 0 < n -> 0 <= e -> 0 <= powmod a e n < n.
Proof.
  intros Hn He. rewrite powmod_spec by assumption. apply Z.mod_pos_bound. assumption.
Qed.

(** Fermat, in the form RSA uses: an exponent that is 1 modulo [p - 1]
    acts as the identity modulo the prime [p]. *)
Lemma pow_exponent_1_mod_pred p m k :
  Z.prime p -> 0 <= k -> k mod (p - 1) = 1 -> m ^ k mod p = m mod p.
Proof.
  intros Hp Hk Hk1.
  assert (Hp2 : 2 <= p) by (destruct Hp; lia).
  pose proof (Z.div_mod k (p - 1) ltac:(lia)) as Ek. rewrite Hk1 in Ek.
  assert (Ht : 0 <= k / (p - 1)) by (apply Z.div_pos; lia).
  set (t := k / (p - 1)) in *. clearbody t. subst k.
  rewrite Z.pow_add_r by nia. rewrite Z.pow_1_r.
  destruct (Z.eq_dec (m mod p) 0) as [E|E].
  - rewrite <- Zmult_mod_idemp_r, E, Z.mul_0_r. rewrite Z.mod_0_l by lia. reflexivity.
  - rewrite Z.pow_mul_r by lia.
    rewrite <- Zmult_mod_idemp_l, <- Z.mod_pow_l.
    rewrite (Stdlib.Zmod.ZmodInv.Z.fermat_nz p m Hp E).
    rewrite Z.pow_1_l by lia. rewrite Z.mod_1_l by lia. rewrite Z.mul_1_l. reflexivity.
Qed.

(** Raising to an exponent that is 1 modulo [p - 1] and modulo [q - 1] is
    the identity on residues of [p * q]. *)
Lemma rsa_exponents_cancel p q k m :
  Z.prime p -> Z.prime q -> p <> q -> 0 <= k ->
  k mod (p - 1) = 1 -> k mod (q - 1) = 1 ->
  0 <= m < p * q ->
  m ^ k mod (p * q) = m.
Proof.
  intros Hp Hq Hne Hk Hkp Hkq Hm.
  assert (Hp2 : 2 <= p) by (destruct Hp; lia).
  assert (Hq2 : 2 <= q) by (destruct Hq; lia).
  assert (Dp : (p | m ^ k - m)).
  { apply Z.mod_divide; [lia|].
    rewrite Zminus_mod, (pow_exponent_1_mod_pred p m k Hp Hk Hkp), Z.sub_diag.
    apply Z.mod_0_l. lia. }
  assert (Dq : (q | m ^ k - m)).
  { apply Z.mod_divide; [lia|].
    rewrite Zminus_mod, (pow_exponent_1_mod_pred q m k Hq Hk Hkq), Z.sub_diag.
    apply Z.mod_0_l. lia. }
  assert (Hco : Z.gcd q p = 1).
  { apply Z.coprime_prime_l; [assumption|].
    intros D. apply Hne. symmetry. apply Z.divide_prime_prime; assumption. }
  destruct Dp as [y Hy].
  assert (Dq' : (q | y)).
  { apply (Z.gauss q p y); [|exact Hco]. rewrite Z.mul_comm, <- Hy. exact Dq. }
  destruct Dq' as [z Hz].
  assert (E : m ^ k = m + z * (p * q)) by (subst y; lia).
  rewrite E, Z.mod_add by lia. apply Z.mod_small. exact Hm.
Qed.

(** The public operation undoes the private one. *)
Lemma rsa_round_trip K m :
  rsa_key K -> 0 <= m < modulus_of K ->
  powmod (powmod m (private_exponent K) (modulus_of K))
         (public_exponent K) (modulus_of K) = m.
Proof.
  intros (Hp & Hq & Hne & He & Hd & Hkp & Hkq) Hm. unfold modulus_of in *.
  rewrite !powmod_spec by lia.
  rewrite Z.mod_pow_l, <- Z.pow_mul_r by lia.
  rewrite (Z.mul_comm (private_exponent K)).
  apply rsa_exponents_cancel; try assumption. nia.
Qed.

Lemma rsa_key_modulus K : rsa_key K -> 4 <= modulus_of K.
Proof.
  intros (Hp & Hq & _). unfold modulus_of.
  assert (2 <= prime1 K) by (destruct Hp; lia).
  assert (2 <= prime2 K) by (destruct Hq; lia).
  nia.
Qed.

(** The modulus lies between the powers of two its length names. *)
Lemma modBits_bounds n :
  0 < n ->
  (1 <= modBits n)%nat
  /\ 2 ^ (Z.of_nat (modBits n) - 1) <= n < 2 ^ Z.of_nat (modBits n).
Proof.
  intros Hn. unfold modBits.
  pose proof (Z.log2_nonneg n) as H0. pose proof (Z.log2_spec n Hn) as [Hlo Hhi].
  rewrite Z2Nat.id by lia.
  replace (Z.log2 n + 1 - 1) with (Z.log2 n) by lia.
  replace (Z.log2 n + 1) with (Z.succ (Z.log2 n)) by lia.
  split; [lia|]. split; assumption.
Qed.

Lemma octets_hold_bits bits : 2 ^ Z.of_nat bits <= 256 ^ Z.of_nat (octets_of_bits bits).
Proof.
  change 256 with (2 ^ 8). rewrite <- Z.pow_mul_r by lia.
  apply Z.pow_le_mono_r; [lia|].
  pose proof (padding_bits bits). lia.
Qed.

(** *** The encoding *)

Section SchemeFacts.

Variable digest : HashAlgorithm -> bytes -> bytes.
Variable digest_size : HashAlgorithm -> nat.

(** A digest has the length its algorithm names. *)
Hypothesis digest_length :
  forall alg data, List.length (digest alg data) = digest_size alg.

(** What an encoded message is made of. *)
Lemma emsa_pss_encode_shape alg mgf_alg M salt emBits EM :
  emsa_pss_encode digest digest_size alg mgf_alg M salt emBits = Some EM ->
  let emLen := octets_of_bits emBits in
  let hLen := digest_size alg in
  let sLen := List.length salt in
  let H := digest alg (zero_octets 8 ++ digest alg M ++ salt) in
  let DB := zero_octets (emLen - sLen - hLen - 2) ++ [Byte.x01] ++ salt in
  let maskedDB :=
    clear_leftmost (8 * emLen - emBits)
      (xor_octets DB (MGF1_mask digest digest_size mgf_alg H (emLen - hLen - 1))) in
  (hLen + sLen + 2 <= emLen)%nat
  /\ EM = maskedDB ++ H ++ [Byte.xbc]
  /\ List.length maskedDB = (emLen - hLen - 1)%nat
  /\ List.length H = hLen
  /\ leftmost_clear (8 * emLen - emBits) DB = true.
Proof.
  unfold emsa_pss_encode. cbv zeta.
  destruct (octets_of_bits emBits <? digest_size alg + List.length salt + 2)%nat
    eqn:E; [discriminate|].
  apply Nat.ltb_ge in E. intros HEM. injection HEM as <-.
  split; [exact E|]. split; [reflexivity|]. split; [|split].
  - rewrite length_clear_leftmost, length_xor_octets, !length_app,
      length_zero_octets. cbn [List.length]. lia.
  - apply digest_length.
  - destruct (octets_of_bits emBits - List.length salt - digest_size alg - 2)%nat
      as [|k]; cbn [zero_octets repeat app leftmost_clear].
    + rewrite clear_top_x01 by apply padding_bits. reflexivity.
    + reflexivity.
Qed.

Lemma length_emsa_pss_encode alg mgf_alg M salt emBits EM :
  emsa_pss_encode digest digest_size alg mgf_alg M salt emBits = Some EM ->
  List.length EM = octets_of_bits emBits.
Proof.
  intros HEM. apply emsa_pss_encode_shape in HEM. cbv zeta in HEM.
  destruct HEM as (Hle & -> & Hm & Hh & _).
  rewrite !length_app, Hm, Hh. cbn [List.length]. lia.
Qed.

(** An encoded message fits in [emBits] bits. *)
Lemma emsa_pss_encode_bound alg mgf_alg M salt emBits EM :
  emsa_pss_encode digest digest_size alg mgf_alg M salt emBits = Some EM ->
  0 <= OS2IP EM < 2 ^ Z.of_nat emBits.
Proof.
  intros HEM. pose proof (length_emsa_pss_encode _ _ _ _ _ _ HEM) as Hlen.
  split; [apply OS2IP_range|].
  apply emsa_pss_encode_shape in HEM. cbv zeta in HEM.
  destruct HEM as (Hle & HEM & Hm & _ & _).
  destruct (padding_bits emBits) as [Hc Hc'].
  set (c := (8 * octets_of_bits emBits - emBits)%nat) in *.
  destruct (xor_octets _ _) as [|x rest] in HEM, Hm;
    cbn [clear_leftmost List.length] in Hm; [lia|].
  cbn [clear_leftmost app] in HEM. subst EM. cbn [OS2IP List.length] in *.
  set (tl := (rest ++ _)) in *.
  pose proof (OS2IP_range tl) as Ht.
  pose proof (clear_top_bound c x ltac:(lia)) as Hx.
  pose proof (octet_range (clear_top c x)) as Hx0.
  assert (E : 2 ^ Z.of_nat emBits
              = 2 ^ (8 - Z.of_nat c) * 256 ^ Z.of_nat (List.length tl)).
  { change 256 with (2 ^ 8). rewrite <- Z.pow_mul_r, <- Z.pow_add_r by lia.
    f_equal. lia. }
  rewrite E.
  assert (0 < 256 ^ Z.of_nat (List.length tl)) by (apply Z.pow_pos_nonneg; lia).
  nia.
Qed.

(** Verification accepts what encoding produced, for the same message and
    the length of the salt used. *)
Lemma emsa_pss_verify_encode alg mgf_alg M salt emBits EM :
  emsa_pss_encode digest digest_size alg mgf_alg M salt emBits = Some EM ->
  emsa_pss_verify digest digest_size alg mgf_alg M EM emBits (List.length salt)
  = true.
Proof.
  intros HEM. pose proof (length_emsa_pss_encode _ _ _ _ _ _ HEM) as Hlen.
  apply emsa_pss_encode_shape in HEM. cbv zeta in HEM.
  destruct HEM as (Hle & HEM & Hm & Hh & Hclear).
  unfold emsa_pss_verify. cbv zeta.
  replace (octets_of_bits emBits <? digest_size alg + List.length salt + 2)%nat
    with false by (symmetry; apply Nat.ltb_ge; exact Hle).
  rewrite Hlen, Nat.eqb_refl. cbn [negb].
  set (emLen := octets_of_bits emBits) in *.
  set (hLen := digest_size alg) in *.
  set (sLen := List.length salt) in *.
  set (c := (8 * emLen - emBits)%nat) in *.
  set (H := digest alg (zero_octets 8 ++ digest alg M ++ salt)) in *.
  set (DB := zero_octets (emLen - sLen - hLen - 2) ++ [Byte.x01] ++ salt) in *.
  set (mask := MGF1_mask digest digest_size mgf_alg H (emLen - hLen - 1)) in *.
  set (maskedDB := clear_leftmost c (xor_octets DB mask)) in *.
  assert (E1 : firstn (emLen - hLen - 1) EM = maskedDB).
  { rewrite HEM, <- Hm. apply firstn_length_app. }
  assert (E2 : skipn (emLen - hLen - 1) EM = H ++ [Byte.xbc]).
  { rewrite HEM, <- Hm. apply skipn_length_app. }
  assert (E3 : skipn (emLen - 1) EM = [Byte.xbc]).
  { rewrite HEM, app_assoc.
    replace (emLen - 1)%nat with (List.length (maskedDB ++ H))
      by (rewrite length_app; lia).
    apply skipn_length_app. }
  assert (E2' : firstn hLen (H ++ [Byte.xbc]) = H)
    by (rewrite <- Hh; apply firstn_length_app).
  rewrite E1, E2, E3, E2'.
  rewrite octets_eqb_refl. cbn [negb].
  unfold maskedDB at 1. rewrite leftmost_clear_of_cleared. cbn [negb].
  fold mask. unfold maskedDB. rewrite (unmask_masked c DB mask Hclear).
  replace (emLen - hLen - sLen - 2)%nat with (emLen - sLen - hLen - 2)%nat by lia.
  set (psLen := (emLen - sLen - hLen - 2)%nat) in *.
  assert (E4 : firstn (psLen + 1) DB = zero_octets psLen ++ [Byte.x01]).
  { unfold DB. rewrite app_assoc.
    replace (psLen + 1)%nat with (List.length (zero_octets psLen ++ [Byte.x01]))
      by (rewrite length_app, length_zero_octets; reflexivity).
    apply firstn_length_app. }
  assert (E5 : skipn (psLen + 1) DB = salt).
  { unfold DB. rewrite app_assoc.
    replace (psLen + 1)%nat with (List.length (zero_octets psLen ++ [Byte.x01]))
      by (rewrite length_app, length_zero_octets; reflexivity).
    apply skipn_length_app. }
  rewrite E4, E5, octets_eqb_refl. cbn [negb].
  apply octets_eqb_refl.
Qed.


(** *** The Signer and the Verifier *)

(** Signing returns only for a padding it knows, a salt length it can
    use, and an encoding that succeeded. *)
Lemma sign_returns_inv K data pad alg s signature s' :
  sign digest digest_size K data pad alg s = (Return signature, s') ->
  let n := modulus_of K in
  let emBits := (modBits n - 1)%nat in
  exists mgf_alg sl sLen EM,
    pad = PSS (MGF1 mgf_alg) sl
    /\ salt_octets sl (octets_of_bits emBits) (digest_size alg) = Some sLen
    /\ emsa_pss_encode digest digest_size alg mgf_alg data (fst (draw sLen s)) emBits
       = Some EM
    /\ OS2IP EM < n
    /\ signature = I2OSP (powmod (OS2IP EM) (private_exponent K) n)
                     (octets_of_bits (modBits n))
    /\ s' = snd (draw sLen s).
Proof.
  unfold sign. cbv zeta.
  destruct pad as [[mgf_alg] sl|]; [|discriminate].
  destruct (salt_octets sl _ _) as [sLen|] eqn:Es; [|discriminate].
  destruct (emsa_pss_encode _ _ _ _ _ _ _) as [EM|] eqn:Ee; [|discriminate].
  destruct (OS2IP EM <? modulus_of K) eqn:Er; [|discriminate].
  remember (powmod _ _ _) as sv eqn:Esv.
  intros H. injection H as <- <-.
  exists mgf_alg, sl, sLen, EM. apply Z.ltb_lt in Er. subst sv.
  repeat split; assumption.
Qed.

(** Signatures have the length of the modulus in octets. *)
Lemma length_signature K data pad alg s signature s' :
  sign digest digest_size K data pad alg s = (Return signature, s') ->
  List.length signature = octets_of_bits (modBits (modulus_of K)).
Proof.
  intros H. apply sign_returns_inv in H. cbv zeta in H.
  destruct H as (mgf_alg & sl & sLen & EM & _ & _ & _ & _ & -> & _).
  apply length_of_I2OSP.
Qed.

(** The Verifier accepts what the Signer returned for an RSA key. *)
Lemma verify_signed K data pad alg s signature s' :
  rsa_key K ->
  sign digest digest_size K data pad alg s = (Return signature, s') ->
  forall s'',
    verify digest digest_size (public_of K) signature data pad alg s''
    = (Return tt, s'').
Proof.
  intros HK H s''. pose proof (rsa_key_modulus K HK) as Hn.
  apply sign_returns_inv in H. cbv zeta in H.
  destruct H as (mgf_alg & sl & sLen & EM & -> & Es & Ee & Hr & -> & _).
  pose proof (length_emsa_pss_encode _ _ _ _ _ _ Ee) as Hlen.
  pose proof (OS2IP_range EM) as Hm. rewrite Hlen in Hm.
  pose proof (emsa_pss_verify_encode _ _ _ _ _ _ Ee) as Hv.
  rewrite length_draw in Hv.
  unfold verify. cbn [public_of modulus exponent]. cbv zeta.
  set (n := modulus_of K) in *.
  rewrite Es, length_of_I2OSP, Nat.eqb_refl. cbn [negb].
  pose proof (powmod_bounds (OS2IP EM) (private_exponent K) n ltac:(lia)
                ltac:(destruct HK as (_ & _ & _ & _ & ? & _); lia)) as Hs.
  pose proof (rsa_round_trip K (OS2IP EM) HK ltac:(fold n; lia)) as Hrt.
  fold n in Hrt.
  remember (powmod (OS2IP EM) (private_exponent K) n) as sv eqn:Esv.
  rewrite OS2IP_of_I2OSP.
  2:{ destruct (modBits_bounds n ltac:(lia)) as (_ & _ & Hhi).
      pose proof (octets_hold_bits (modBits n)). lia. }
  replace (sv <? n) with true by (symmetry; apply Z.ltb_lt; lia).
  cbn [negb]. rewrite Hrt.
  replace (OS2IP EM <? 256 ^ Z.of_nat (octets_of_bits (modBits n - 1)))
    with true by (symmetry; apply Z.ltb_lt; lia).
  cbn [negb]. rewrite <- Hlen, I2OSP_of_OS2IP, Hv. reflexivity.
Qed.

(** The Verifier leaves the random source alone and raises nothing
    outside [Exception]. *)
Lemma verify_outcome P signature data pad alg s :
  snd (verify digest digest_size P signature data pad alg s) = s
  /\ forall e,
       fst (verify digest digest_size P signature data pad alg s) = Raise e ->
       isinstance_Exception e = true.
Proof.
  unfold verify. cbv zeta.
  destruct pad as [[mgf_alg] sl|]; [|split; [reflexivity|]].
  - destruct (salt_octets sl _ _) as [sLen|]; [|split; [reflexivity|]].
    + destruct (negb (_ =? _)%nat); [split; [reflexivity|]|].
      * intros e H. injection H as <-. reflexivity.
      * destruct (negb (_ <? _)); [split; [reflexivity|]|].
        -- intros e H. injection H as <-. reflexivity.
        -- remember (powmod _ _ _) as m eqn:Em.
           destruct (negb (_ <? _)); [split; [reflexivity|]|].
           ++ intros e H. injection H as <-. reflexivity.
           ++ destruct (emsa_pss_verify _ _ _ _ _ _ _ _); split;
                try reflexivity; intros e H; [discriminate H|].
              injection H as <-. reflexivity.
    + intros e H. injection H as <-. reflexivity.
  - intros e H. injection H as <-. reflexivity.
Qed.

(** Under PSS padding the Verifier passes or fails, and nothing else. *)
Lemma verify_pass_or_fail P signature data mgf_alg sl alg s :
  verify digest digest_size P signature data (PSS (MGF1 mgf_alg) sl) alg s
  = (Return tt, s)
  \/ verify digest digest_size P signature data (PSS (MGF1 mgf_alg) sl) alg s
     = (Raise (mkExc InvalidSignature ""%string), s).
Proof.
  unfold verify. cbv zeta.
  destruct (salt_octets sl _ _) as [sLen|]; [|right; reflexivity].
  destruct (negb (_ =? _)%nat); [right; reflexivity|].
  destruct (negb (_ <? _)); [right; reflexivity|].
  remember (powmod _ _ _) as m eqn:Em.
  destruct (negb (_ <? _)); [right; reflexivity|].
  destruct (emsa_pss_verify _ _ _ _ _ _ _ _); [left|right]; reflexivity.
Qed.

(** With the digest of 32 octets and a modulus of 2048 bits, the Signer
    returns for the padding the script asks for. *)
Lemma sign_returns K data alg mgf_alg s :
  digest_size alg = 32%nat ->
  modBits (modulus_of K) = 2048%nat ->
  exists signature,
    sign digest digest_size K data (PSS (MGF1 mgf_alg) MAX_LENGTH) alg s
    = (Return signature, snd (draw 222 s)).
Proof.
  intros Hh Hb. unfold sign. cbv zeta. rewrite Hb, Hh.
  change (octets_of_bits (2048 - 1)) with 256%nat.
  cbn [salt_octets]. change (256 <? 32 + 2)%nat with false.
  change (256 - 32 - 2)%nat with 222%nat. cbv iota beta.
  destruct (emsa_pss_encode _ _ _ _ _ _ _) as [EM|] eqn:Ee.
  - pose proof (emsa_pss_encode_bound _ _ _ _ _ _ Ee) as Hm.
    assert (Hn : 0 < modulus_of K).
    { destruct (Z.ltb_spec 0 (modulus_of K)) as [H|H]; [exact H|].
      exfalso. unfold modBits in Hb.
      rewrite Z.log2_nonpos in Hb by exact H. discriminate Hb. }
    destruct (modBits_bounds _ Hn) as (_ & Hlo & _). rewrite Hb in Hlo.
    replace (OS2IP EM <? modulus_of K) with true.
    + eexists. reflexivity.
    + symmetry. apply Z.ltb_lt.
      change (Z.of_nat (2048 - 1)) with (Z.of_nat 2048 - 1) in Hm. lia.
  - exfalso. unfold emsa_pss_encode in Ee. cbv zeta in Ee.
    rewrite length_draw, Hh in Ee.
    change (octets_of_bits (2048 - 1) <? 32 + 222 + 2)%nat with false in Ee.
    discriminate Ee.
Qed.

End SchemeFacts.

(** *** The package of the model obeys the laws *)

Section PackageFacts.

Variable digest : HashAlgorithm -> bytes -> bytes.
Variable digest_size : HashAlgorithm -> nat.
Variable keygen :
  Z -> Z -> Backend -> RandomSource -> Result PrivateKey * RandomSource.

Lemma model_signature_length_law :
  @SignatureLengthLaw (lib digest digest_size keygen).
Proof.
  intros K data pad alg s signature s' H.
  cbn [rsa_sign key_size lib] in *.
  apply length_signature in H. rewrite H. unfold octets_of_bits.
  rewrite Nat2Z.inj_div, Nat2Z.inj_add. reflexivity.
Qed.

Lemma model_key_size_law :
  generates_requested_size keygen -> @KeySizeLaw (lib digest digest_size keygen).
Proof. intros Hk e bits be s K s' H. exact (Hk _ _ _ _ _ _ H). Qed.

Lemma model_sign_verify_law :
  (forall alg data, List.length (digest alg data) = digest_size alg) ->
  generates_rsa_keys keygen -> @SignVerifyLaw (lib digest digest_size keygen).
Proof.
  intros Hd Hk e bits be s0 K s1 Hg data pad alg s signature s' Hs s''.
  cbn [rsa_sign rsa_verify rsa_public_key rsa_generate_private_key lib] in *.
  rewrite (verify_signed digest digest_size Hd K data pad alg s signature s'
             (Hk _ _ _ _ _ _ Hg) Hs s'').
  reflexivity.
Qed.

Lemma model_verify_pure_law : @VerifyPureLaw (lib digest digest_size keygen).
Proof.
  intros P signature data pad alg s. cbn [rsa_verify lib].
  apply verify_outcome.
Qed.

Lemma model_verify_raises_exception_law :
  @VerifyRaisesExceptionLaw (lib digest digest_size keygen).
Proof.
  intros P signature data pad alg s e. cbn [rsa_verify lib].
  apply verify_outcome.
Qed.

End PackageFacts.

End RSAPSSFacts.

(** ** The instances *)
Module PSSExampleFacts.

Import RSAPSS PSSExamples.
Local Open Scope list_scope.
Local Open Scope Z_scope.

(** Trial division, up to a bound whose square exceeds the number. *)
Lemma prime_by_trial_division p k :
  1 < p -> p < Z.of_nat k * Z.of_nat k ->
  forallb (fun n => negb (p mod Z.of_nat n =? 0)) (seq 2 (k - 2)) = true ->
  Z.prime p.
Proof.
  intros Hp Hk Hall. split; [exact Hp|]. intros n Hn [m Hm].
  rewrite forallb_forall in Hall.
  assert (Hno : forall c, 1 < c < Z.of_nat k -> p mod c <> 0).
  { intros c Hc E.
    specialize (Hall (Z.to_nat c) ltac:(apply in_seq; lia)).
    rewrite Z2Nat.id, E in Hall by lia. discriminate Hall. }
  assert (Hm1 : 1 < m < p) by nia.
  destruct (Z.lt_ge_cases n (Z.of_nat k)) as [Hlt|Hge].
  - apply (Hno n); [lia|]. subst p. apply Z.mod_mul. lia.
  - apply (Hno m); [nia|]. subst p. rewrite Z.mul_comm. apply Z.mod_mul. lia.
Qed.

Lemma small_key_is_rsa_key : rsa_key small_key.
Proof.
  unfold rsa_key, small_key. cbn [prime1 prime2 public_exponent private_exponent].
  split; [apply (prime_by_trial_division _ 90); [lia|lia|vm_compute; reflexivity]|].
  split; [apply (prime_by_trial_division _ 90); [lia|lia|vm_compute; reflexivity]|].
  split; [lia|]. split; [lia|]. split; [lia|]. split; reflexivity.
Qed.

Lemma small_keygen_generates_rsa_keys : generates_rsa_keys small_keygen.
Proof.
  intros e bits be s K s' H. injection H as <- _. exact small_key_is_rsa_key.
Qed.

Lemma digest1_length alg data : List.length (digest1 alg data) = digest1_size alg.
Proof. reflexivity. Qed.

Lemma digest32_length alg data : List.length (digest32 alg data) = digest32_size alg.
Proof. apply repeat_length. Qed.

Lemma modBits_key2048 : modBits (modulus_of key2048) = 2048%nat.
Proof. vm_compute. reflexivity. Qed.

Lemma keygen2048_inv e bits be s K s' :
  keygen2048 e bits be s = (Return K, s') ->
  e = 65537 /\ bits = 2048 /\ K = key2048 /\ s' = s.
Proof.
  unfold keygen2048.
  destruct (e =? 65537) eqn:Ee; [|discriminate].
  destruct (bits =? 2048) eqn:Eb; [|discriminate].
  cbn [andb]. intros H. injection H as <- <-.
  apply Z.eqb_eq in Ee, Eb. auto.
Qed.

Lemma keygen2048_generates_requested_size : generates_requested_size keygen2048.
Proof.
  intros e bits be s K s' H. apply keygen2048_inv in H as (_ & -> & -> & _).
  rewrite modBits_key2048. reflexivity.
Qed.

End PSSExampleFacts.

(** Where a package has the round trip as a law: for a key pair generated
    with public exponent 65537 and 2048 bits, whatever message paso 5
    signs, paso 6 gets [None] from the verification call, returns and
    prints the line of success; and a run that signs its own message logs
    a verification call that returned, and prints that line. *)
Lemma accepted_under_the_round_trip_law {L : Cryptography} :
  SignVerifyLaw ->
  forall s0 K s1,
    rsa_generate_private_key 65537 2048 default_backend s0 = (Return K, s1) ->
    (forall M w signature,
        fst (paso5 K M w) = Return signature ->
        forall w',
          fst (rsa_verify (rsa_public_key K) signature M
                 (PSS (MGF1 SHA256) MAX_LENGTH) SHA256 (lib_state w'))
            = Return tt
          /\ fst (paso6 (rsa_public_key K) signature M w') = Return tt
          /\ printed (paso6 (rsa_public_key K) signature M) w'
             = [nl ++ "✅ Firma verificada con éxito. El mensaje es auténtico y no ha sido alterado."])
    /\
    (forall w signature s2,
        lib_state w = s0 ->
        rsa_sign K (b "Este es el mensaje que quiero firmar digitalmente.")
          (PSS (MGF1 SHA256) MAX_LENGTH) SHA256 s1 = (Return signature, s2) ->
        In (CallVerify (rsa_public_key K) signature
              (b "Este es el mensaje que quiero firmar digitalmente.")
              (PSS (MGF1 SHA256) MAX_LENGTH) SHA256 (Return tt))
           (called firma_rsa w)
        /\ In (nl ++ "✅ Firma verificada con éxito. El mensaje es auténtico y no ha sido alterado.")
              (printed firma_rsa w)).
Proof.
  intros Hlaw s0 K s1 Hg. split.
  - intros M w signature H5 w'.
    apply paso5_returns in H5 as [Hs _].
    destruct (rsa_sign K M (PSS (MGF1 SHA256) MAX_LENGTH) SHA256 (lib_state w))
      as [o s'] eqn:E. cbn [fst] in Hs. subst o.
    pose proof (Hlaw _ _ _ _ _ _ Hg _ _ _ _ _ _ E (lib_state w')) as Hv.
    split; [exact Hv|].
    pose proof (paso6_run (rsa_public_key K) signature M w') as R.
    cbv zeta in R. rewrite Hv in R. cbn [escapes reporte_paso6] in R.
    split; [rewrite R; reflexivity|].
    apply printed_of. rewrite R. reflexivity.
  - intros w signature s2 Hw Hs. subst s0.
    destruct (firma_rsa_signed_facts w K s1 signature s2 Hg Hs)
      as (_ & Hp & Hc & _).
    pose proof (Hlaw _ _ _ _ _ _ Hg _ _ _ _ _ _ Hs s2) as Hv.
    rewrite Hv in Hp, Hc. cbn [escapes reporte_paso6] in Hp, Hc.
    rewrite Hp, Hc. split.
    + apply in_or_app. left. cbn. auto.
    + apply in_or_app. right. cbn. auto.
Qed.

(** C1.  Signing then verifying succeeds.  In the model of the package,
    with digests of the length their algorithm names and a Key Generator
    that returns RSA keys, take a key pair generated with public exponent
    65537 and 2048 bits.  Whatever message, padding and digest the Signer
    signed with under the private key, the Verifier accepts that signature
    for that message under the public key, the same padding and the same
    digest, and leaves the random source alone.  So, whatever message
    paso 5 signs, paso 6 run with the public key on that message and that
    signature returns and prints the line of success; and a run of the
    whole script that signs its own message logs a verification call that
    returned, and prints that line. *)
Theorem sign_then_verify_original_valid
    (digest : HashAlgorithm -> bytes -> bytes) (digest_size : HashAlgorithm -> nat)
    (keygen : Z -> Z -> Backend -> RSAPSS.RandomSource ->
              Result RSAPSS.PrivateKey * RSAPSS.RandomSource) :
  let L := RSAPSS.lib digest digest_size keygen in
  (forall alg data, List.length (digest alg data) = digest_size alg) ->
  RSAPSS.generates_rsa_keys keygen ->
  forall s0 K s1,
    rsa_generate_private_key 65537 2048 default_backend s0 = (Return K, s1) ->
    (forall M pad alg s signature s',
        RSAPSS.sign digest digest_size K M pad alg s = (Return signature, s') ->
        forall s'',
          RSAPSS.verify digest digest_size (RSAPSS.public_of K) signature M pad alg s''
          = (Return tt, s''))
    /\
    (forall M w signature,
        fst (paso5 K M w) = Return signature ->
        forall w',
          fst (paso6 (rsa_public_key K) signature M w') = Return tt
          /\ printed (paso6 (rsa_public_key K) signature M) w'
             = [nl ++ "✅ Firma verificada con éxito. El mensaje es auténtico y no ha sido alterado."])
    /\
    (forall w signature s2,
        lib_state w = s0 ->
        rsa_sign K (b "Este es el mensaje que quiero firmar digitalmente.")
          (PSS (MGF1 SHA256) MAX_LENGTH) SHA256 s1 = (Return signature, s2) ->
        In (CallVerify (rsa_public_key K) signature
              (b "Este es el mensaje que quiero firmar digitalmente.")
              (PSS (MGF1 SHA256) MAX_LENGTH) SHA256 (Return tt))
           (called firma_rsa w)
        /\ In (nl ++ "✅ Firma verificada con éxito. El mensaje es auténtico y no ha sido alterado.")
              (printed firma_rsa w)).
Proof.
  intros L Hd Hk s0 K s1 Hg.
  pose proof (RSAPSSFacts.model_sign_verify_law digest digest_size keygen Hd Hk)
    as Hlaw.
  destruct (accepted_under_the_round_trip_law (L := L) Hlaw s0 K s1 Hg)
    as [Hstep Hrun].
  split; [|split].
  - intros M pad alg s signature s' Hs s''.
    exact (RSAPSSFacts.verify_signed digest digest_size Hd K M pad alg s signature
             s' (Hk _ _ _ _ _ _ Hg) Hs s'').
  - intros M w signature H5 w'. exact (proj2 (Hstep M w signature H5 w')).
  - exact Hrun.
Qed.

Lemma sign_then_verify_original_valid_witness :
  (forall alg data,
      List.length (PSSExamples.digest1 alg data) = PSSExamples.digest1_size alg)
  /\ RSAPSS.generates_rsa_keys PSSExamples.small_keygen
  /\ PSSExamples.small_keygen 65537 2048 default_backend PSSExamples.source
     = (Return PSSExamples.small_key, PSSExamples.source)
  /\ fst (RSAPSS.sign PSSExamples.digest1 PSSExamples.digest1_size
            PSSExamples.small_key (b "hola") (PSS (MGF1 SHA256) MAX_LENGTH) SHA256
            PSSExamples.source)
     = Return [Byte.x02; Byte.x39; Byte.x76; Byte.x70]
  /\ RSAPSS.verify PSSExamples.digest1 PSSExamples.digest1_size
       (RSAPSS.public_of PSSExamples.small_key)
       [Byte.x02; Byte.x39; Byte.x76; Byte.x70] (b "hola")
       (PSS (MGF1 SHA256) MAX_LENGTH) SHA256 PSSExamples.source
     = (Return tt, PSSExamples.source)
  /\ In (nl ++ "✅ Firma verificada con éxito. El mensaje es auténtico y no ha sido alterado.")
        (printed (@firma_rsa PSSExamples.small_lib) PSSExamples.small_world0).
Proof.
  destruct (sign_then_verify_original_valid
              PSSExamples.digest1 PSSExamples.digest1_size PSSExamples.small_keygen
              PSSExampleFacts.digest1_length
              PSSExampleFacts.small_keygen_generates_rsa_keys
              PSSExamples.source PSSExamples.small_key PSSExamples.source eq_refl)
    as (Hmodel & _ & Hrun).
  assert (E1 : fst (RSAPSS.sign PSSExamples.digest1 PSSExamples.digest1_size
                      PSSExamples.small_key (b "hola")
                      (PSS (MGF1 SHA256) MAX_LENGTH) SHA256 PSSExamples.source)
               = Return [Byte.x02; Byte.x39; Byte.x76; Byte.x70])
    by (vm_compute; reflexivity).
  assert (E2 : fst (RSAPSS.sign PSSExamples.digest1 PSSExamples.digest1_size
                      PSSExamples.small_key
                      (b "Este es el mensaje que quiero firmar digitalmente.")
                      (PSS (MGF1 SHA256) MAX_LENGTH) SHA256 PSSExamples.source)
               = Return [Byte.x03; Byte.xb9; Byte.x62; Byte.x17])
    by (vm_compute; reflexivity).
  split; [exact PSSExampleFacts.digest1_length|].
  split; [exact PSSExampleFacts.small_keygen_generates_rsa_keys|].
  split; [reflexivity|].
  split; [exact E1|].
  split.
  - exact (Hmodel _ _ _ _ _ _ (pair_of_fst _ _ E1) PSSExamples.source).
  - exact (proj2 (Hrun PSSExamples.small_world0 _ _ eq_refl (pair_of_fst _ _ E2))).
Defined.

(** Where a package has the two length laws: for a key generated with
    public exponent 65537 and 2048 bits, every signature paso 5 returns
    has length 256; and in a run of the script, every signature its
    signing call returned has length 256. *)
Lemma length_256_under_the_length_laws {L : Cryptography} :
  KeySizeLaw -> SignatureLengthLaw ->
  (forall s0 K s1,
      rsa_generate_private_key 65537 2048 default_backend s0 = (Return K, s1) ->
      forall M w signature,
        fst (paso5 K M w) = Return signature ->
        List.length signature = 256%nat)
  /\
  (forall w private_key data pad alg signature,
      In (CallSign private_key data pad alg (Return signature))
         (called firma_rsa w) ->
      List.length signature = 256%nat).
Proof.
  intros Hk Hl. split.
  - intros s0 K s1 Hg M w signature H5.
    apply paso5_returns in H5 as [Hs _].
    exact (generated_signature_length Hk Hl s0 K s1 Hg _ _ _ _ _ Hs).
  - intros w private_key data pad alg signature Hin.
    rewrite firma_rsa_called in Hin. cbv zeta in Hin.
    destruct (rsa_generate_private_key 65537 2048 default_backend (lib_state w))
      as [[K|e] s1] eqn:Hg; world_simpl.
    + destruct Hin as [Hin|[Hin|[Hin|Hin]]]; try discriminate Hin.
      * injection Hin as -> -> -> -> Hs.
        exact (generated_signature_length Hk Hl _ _ _ Hg _ _ _ _ _ Hs).
      * destruct (fst (rsa_sign K _ _ _ s1)) as [sg|e]; [|destruct Hin].
        destruct Hin as [Hin|Hin]; [discriminate Hin|].
        destruct (escapes _) in Hin; [destruct Hin|].
        destruct Hin as [Hin|[]]. discriminate Hin.
    + destruct Hin as [Hin|[]]. discriminate Hin.
Qed.

(** C3.  The signature is 256 octets long, whatever the message.  In the
    model of the package, with a Key Generator that returns keys of the
    size asked for: what the Signer returns under a key of 2048 bits has
    256 octets, for every message, padding and digest.  For a key
    generated with public exponent 65537 and 2048 bits, every signature
    paso 5 returns has length 256, and with digests of 32 octets paso 5
    does return a signature, for every message.  In a run of the script,
    every signature its signing call returned has length 256. *)
Theorem signature_is_256_bytes
    (digest : HashAlgorithm -> bytes -> bytes) (digest_size : HashAlgorithm -> nat)
    (keygen : Z -> Z -> Backend -> RSAPSS.RandomSource ->
              Result RSAPSS.PrivateKey * RSAPSS.RandomSource) :
  let L := RSAPSS.lib digest digest_size keygen in
  RSAPSS.generates_requested_size keygen ->
  (forall K M pad alg s signature s',
      RSAPSS.modBits (RSAPSS.modulus_of K) = 2048%nat ->
      RSAPSS.sign digest digest_size K M pad alg s = (Return signature, s') ->
      List.length signature = 256%nat)
  /\
  (forall s0 K s1,
      rsa_generate_private_key 65537 2048 default_backend s0 = (Return K, s1) ->
      (forall M w signature,
          fst (paso5 K M w) = Return signature ->
          List.length signature = 256%nat)
      /\
      ((forall alg data, List.length (digest alg data) = digest_size alg) ->
       digest_size SHA256 = 32%nat ->
       forall M w,
         exists signature,
           fst (paso5 K M w) = Return signature
           /\ List.length signature = 256%nat))
  /\
  (forall w private_key data pad alg signature,
      In (CallSign private_key data pad alg (Return signature))
         (called firma_rsa w) ->
      List.length signature = 256%nat).
Proof.
  intros L Hk.
  pose proof (RSAPSSFacts.model_key_size_law digest digest_size keygen Hk) as Hks.
  pose proof (RSAPSSFacts.model_signature_length_law digest digest_size keygen)
    as Hsl.
  destruct (length_256_under_the_length_laws (L := L) Hks Hsl) as [Hstep Hrun].
  split; [|split].
  - intros K M pad alg s signature s' Hb Hs.
    apply RSAPSSFacts.length_signature in Hs. rewrite Hs, Hb. reflexivity.
  - intros s0 K s1 Hg. split; [exact (Hstep s0 K s1 Hg)|].
    intros Hd H32 M w.
    assert (Hb : RSAPSS.modBits (RSAPSS.modulus_of K) = 2048%nat).
    { apply Nat2Z.inj. exact (Hk _ _ _ _ _ _ Hg). }
    destruct (RSAPSSFacts.sign_returns digest digest_size Hd K M SHA256 SHA256
                (lib_state w) H32 Hb) as [signature Hs].
    exists signature.
    assert (H5 : fst (paso5 K M w) = Return signature).
    { rewrite paso5_run. cbv zeta.
      change (rsa_sign K M (PSS (MGF1 SHA256) MAX_LENGTH) SHA256 (lib_state w))
        with (RSAPSS.sign digest digest_size K M (PSS (MGF1 SHA256) MAX_LENGTH)
                SHA256 (lib_state w)).
      rewrite Hs. reflexivity. }
    split; [exact H5|]. exact (Hstep s0 K s1 Hg M w signature H5).
  - exact Hrun.
Qed.

Lemma signature_is_256_bytes_witness :
  RSAPSS.generates_requested_size PSSExamples.keygen2048
  /\ PSSExamples.keygen2048 65537 2048 default_backend PSSExamples.source
     = (Return PSSExamples.key2048, PSSExamples.source)
  /\ (forall M : bytes,
        exists signature,
          fst (@paso5 PSSExamples.lib2048 PSSExamples.key2048 M
                 PSSExamples.world2048) = Return signature
          /\ List.length signature = 256%nat).
Proof.
  destruct (signature_is_256_bytes
              PSSExamples.digest32 PSSExamples.digest32_size PSSExamples.keygen2048
              PSSExampleFacts.keygen2048_generates_requested_size)
    as (_ & Hstep & _).
  split; [exact PSSExampleFacts.keygen2048_generates_requested_size|].
  split; [reflexivity|].
  intros M.
  exact (proj2 (Hstep PSSExamples.source PSSExamples.key2048 PSSExamples.source
                  eq_refl)
           PSSExampleFacts.digest32_length eq_refl M PSSExamples.world2048).
Defined.

(** C4.  A failed verification is reported, and the script goes on to its
    last line.  Paso 6 and paso 7 always return, whatever the verification
    call did; and a run that got its key pair and its signature returns
    normally with the completion line printed last, and for an exception
    raised by either verification it has printed the diagnostic that
    carries the exception's text.  The package's law used: verification
    raises nothing outside [Exception]. *)
Theorem verification_failures_reported_not_fatal {L : Cryptography} :
  VerifyRaisesExceptionLaw ->
  (forall public_key signature message w,
      fst (paso6 public_key signature message w) = Return tt)
  /\
  (forall public_key signature w,
      fst (paso7 public_key signature (b "Este es un mensaje modificado.") w)
      = Return tt)
  /\
  (forall w K s1 signature s2,
      rsa_generate_private_key 65537 2048 default_backend (lib_state w)
        = (Return K, s1) ->
      rsa_sign K (b "Este es el mensaje que quiero firmar digitalmente.")
        (PSS (MGF1 SHA256) MAX_LENGTH) SHA256 s1 = (Return signature, s2) ->
      let v1 := rsa_verify (rsa_public_key K) signature
                  (b "Este es el mensaje que quiero firmar digitalmente.")
                  (PSS (MGF1 SHA256) MAX_LENGTH) SHA256 s2 in
      let v2 := rsa_verify (rsa_public_key K) signature
                  (b "Este es un mensaje modificado.")
                  (PSS (MGF1 SHA256) MAX_LENGTH) SHA256 (snd v1) in
      fst (firma_rsa w) = Return tt
      /\ last (printed firma_rsa w) ""
         = nl ++ "🎉 Proceso de firma y verificación digital con RSA completado."
      /\ (forall e, fst v1 = Raise e ->
            In (nl ++ "❌ ERROR: La firma no es válida. Esto podría indicar que el mensaje fue alterado o que la firma es falsa. Detalles: "
                   ++ exc_str e)
               (printed firma_rsa w))
      /\ (forall e, fst v2 = Raise e ->
            In ("Error específico: " ++ exc_str e) (printed firma_rsa w))).
Proof.
  intros Hlaw.
  assert (Hesc : forall pk sg m s,
             escapes (fst (rsa_verify pk sg m (PSS (MGF1 SHA256) MAX_LENGTH)
                             SHA256 s)) = false).
  { intros pk sg m s.
    destruct (fst (rsa_verify pk sg m (PSS (MGF1 SHA256) MAX_LENGTH) SHA256 s))
      as [u|e] eqn:E; [reflexivity|].
    cbn [escapes]. rewrite (Hlaw _ _ _ _ _ _ _ E). reflexivity. }
  split; [|split].
  - intros public_key signature message w.
    rewrite paso6_run. cbv zeta. rewrite Hesc. reflexivity.
  - intros public_key signature w.
    rewrite (paso7_run _ _ _ _ _ decode_message_alterado). cbv zeta.
    rewrite Hesc. reflexivity.
  - intros w K s1 signature s2 Hg Hs. cbv zeta.
    destruct (firma_rsa_signed_facts w K s1 signature s2 Hg Hs)
      as (Hr & Hp & _ & _).
    rewrite !Hesc in Hr, Hp. rewrite Hr, Hp.
    split; [reflexivity|]. split; [|split].
    + rewrite !app_comm_cons, !app_assoc. apply last_last.
    + intros e He. rewrite He. cbn [reporte_paso6].
      apply in_or_app. right. right. left. reflexivity.
    + intros e He. rewrite He. cbn [reporte_paso7].
      apply in_or_app. right. right. apply in_or_app. right.
      right. right. left. reflexivity.
Qed.

Lemma verification_failures_reported_not_fatal_witness :
  @VerifyRaisesExceptionLaw Toy.lib
  /\ @VerifyRaisesExceptionLaw Toy.lib_mismatch
  /\ @rsa_generate_private_key Toy.lib 65537 2048 default_backend 0%Z
     = (Return (Toy.mkKey 2048), 256%Z)
  /\ @rsa_sign Toy.lib (Toy.mkKey 2048)
       (b "Este es el mensaje que quiero firmar digitalmente.")
       (PSS (MGF1 SHA256) MAX_LENGTH) SHA256 256%Z
     = (Return (Toy.firma (b "Este es el mensaje que quiero firmar digitalmente.")),
        257%Z)
  /\ fst (@rsa_verify Toy.lib (Toy.mkKey 2048)
            (Toy.firma (b "Este es el mensaje que quiero firmar digitalmente."))
            (b "Este es un mensaje modificado.")
            (PSS (MGF1 SHA256) MAX_LENGTH) SHA256 257%Z)
     = Raise (mkExc InvalidSignature "")
  /\ fst (@rsa_verify Toy.lib_mismatch (Toy.mkKey 2048)
            (Toy.firma (b "Este es el mensaje que quiero firmar digitalmente."))
            (b "Este es el mensaje que quiero firmar digitalmente.")
            (PSS (MGF1 SHA256) MAX_LENGTH) SHA256 257%Z)
     = Raise (mkExc InvalidSignature "")
  /\ fst (@paso6 Toy.lib (Toy.mkKey 2048) (b "no es una firma") (b "hola")
            Toy.world0) = Return tt
  /\ fst (@firma_rsa Toy.lib Toy.world0) = Return tt
  /\ last (printed (@firma_rsa Toy.lib) Toy.world0) ""
     = nl ++ "🎉 Proceso de firma y verificación digital con RSA completado."
  /\ In ("Error específico: " ++ "") (printed (@firma_rsa Toy.lib) Toy.world0)
  /\ fst (@firma_rsa Toy.lib_mismatch Toy.world0_mismatch) = Return tt
  /\ In (nl ++ "❌ ERROR: La firma no es válida. Esto podría indicar que el mensaje fue alterado o que la firma es falsa. Detalles: "
            ++ "")
        (printed (@firma_rsa Toy.lib_mismatch) Toy.world0_mismatch).
Proof.
  destruct (verification_failures_reported_not_fatal (L := Toy.lib)
              ToyFacts.verify_raises_exception_law) as (H6 & _ & Hrun).
  destruct (verification_failures_reported_not_fatal (L := Toy.lib_mismatch)
              ToyFacts.mismatch_verify_raises_exception_law) as (_ & _ & Hrun').
  assert (Hv2 : fst (@rsa_verify Toy.lib (Toy.mkKey 2048)
                       (Toy.firma (b "Este es el mensaje que quiero firmar digitalmente."))
                       (b "Este es un mensaje modificado.")
                       (PSS (MGF1 SHA256) MAX_LENGTH) SHA256 257%Z)
                = Raise (mkExc InvalidSignature ""))
    by (vm_compute; reflexivity).
  assert (Hv1 : fst (@rsa_verify Toy.lib_mismatch (Toy.mkKey 2048)
                       (Toy.firma (b "Este es el mensaje que quiero firmar digitalmente."))
                       (b "Este es el mensaje que quiero firmar digitalmente.")
                       (PSS (MGF1 SHA256) MAX_LENGTH) SHA256 257%Z)
                = Raise (mkExc InvalidSignature ""))
    by (vm_compute; reflexivity).
  destruct (Hrun Toy.world0 (Toy.mkKey 2048) 256%Z
              (Toy.firma (b "Este es el mensaje que quiero firmar digitalmente."))
              257%Z eq_refl eq_refl) as (Hr & Hlast & _ & Hin2).
  destruct (Hrun' Toy.world0_mismatch (Toy.mkKey 2048) 256%Z
              (Toy.firma (b "Este es el mensaje que quiero firmar digitalmente."))
              257%Z eq_refl eq_refl) as (Hr' & _ & Hin1 & _).
  split; [exact ToyFacts.verify_raises_exception_law|].
  split; [exact ToyFacts.mismatch_verify_raises_exception_law|].
  split; [reflexivity|].
  split; [reflexivity|].
  split; [exact Hv2|].
  split; [exact Hv1|].
  split; [exact (H6 _ _ _ _)|].
  split; [exact Hr|].
  split; [exact Hlast|].
  split; [exact (Hin2 _ Hv2)|].
  split; [exact Hr'|].
  exact (Hin1 _ Hv1).
Defined.

(** C5.  One key pair, generated once, used throughout.  In every run, the
    first call into the package is key generation with public exponent
    65537 and 2048 bits, and no later call generates a key; every later
    signing call uses the private key that call returned, and every
    verification call uses the public key derived from that same private
    key, on a signature that private key produced for the script's
    message. *)
Theorem key_pair_generated_once_used_throughout {L : Cryptography} (w : World) :
  exists outcome rest,
    called firma_rsa w
      = CallGenerate 65537 2048 default_backend outcome :: rest
    /\ outcome
       = fst (rsa_generate_private_key 65537 2048 default_backend (lib_state w))
    /\ (forall e k be o, ~ In (CallGenerate e k be o) rest)
    /\ (forall private_key public_key,
           In (CallPublicKey private_key public_key) rest ->
           outcome = Return private_key
           /\ public_key = rsa_public_key private_key)
    /\ (forall private_key data pad alg o,
           In (CallSign private_key data pad alg o) rest ->
           outcome = Return private_key)
    /\ (forall public_key signature data pad alg o,
           In (CallVerify public_key signature data pad alg o) rest ->
           exists private_key,
             outcome = Return private_key
             /\ public_key = rsa_public_key private_key
             /\ In (CallSign private_key
                      (b "Este es el mensaje que quiero firmar digitalmente.")
                      (PSS (MGF1 SHA256) MAX_LENGTH) SHA256 (Return signature))
                   rest).
Proof.
  rewrite firma_rsa_called. cbv zeta.
  eexists. eexists. split; [reflexivity|]. split; [reflexivity|].
  destruct (rsa_generate_private_key 65537 2048 default_backend (lib_state w))
    as [[K|e0] s1]; world_simpl.
  2:{ repeat split; intros; try intros []; contradiction. }
  destruct (rsa_sign K (b "Este es el mensaje que quiero firmar digitalmente.")
              (PSS (MGF1 SHA256) MAX_LENGTH) SHA256 s1) as [[sg|e1] s2];
    world_simpl.
  2:{ repeat split.
      - intros e k be o [H|[H|[]]]; discriminate H.
      - destruct H as [H|[H|[]]]; [injection H as <- _; reflexivity|discriminate H].
      - destruct H as [H|[H|[]]]; [injection H as <- <-; reflexivity|discriminate H].
      - intros private_key data pad alg o [H|[H|[]]];
          [discriminate H|injection H as <- _ _ _ _; reflexivity].
      - intros public_key signature data pad alg o [H|[H|[]]]; discriminate H. }
  set (v1 := rsa_verify (rsa_public_key K) sg
               (b "Este es el mensaje que quiero firmar digitalmente.")
               (PSS (MGF1 SHA256) MAX_LENGTH) SHA256 s2).
  set (tail := if escapes (fst v1) then []
               else [CallVerify (rsa_public_key K) sg
                       (b "Este es un mensaje modificado.")
                       (PSS (MGF1 SHA256) MAX_LENGTH) SHA256
                       (fst (rsa_verify (rsa_public_key K) sg
                               (b "Este es un mensaje modificado.")
                               (PSS (MGF1 SHA256) MAX_LENGTH) SHA256 (snd v1)))]).
  assert (Htail : forall c, In c tail ->
             exists d o', c = CallVerify (rsa_public_key K) sg d
                                (PSS (MGF1 SHA256) MAX_LENGTH) SHA256 o').
  { intros c Hc. unfold tail in Hc. destruct (escapes (fst v1)); [destruct Hc|].
    destruct Hc as [<-|[]]. eauto. }
  repeat split.
  - intros e k be o [H|[H|[H|H]]]; try discriminate H.
    destruct (Htail _ H) as (d & o' & Heq). discriminate Heq.
  - destruct H as [H|[H|[H|H]]]; try discriminate H.
    + injection H as <- _. reflexivity.
    + destruct (Htail _ H) as (d & o' & Heq). discriminate Heq.
  - destruct H as [H|[H|[H|H]]]; try discriminate H.
    + injection H as <- <-. reflexivity.
    + destruct (Htail _ H) as (d & o' & Heq). discriminate Heq.
  - intros private_key data pad alg o [H|[H|[H|H]]]; try discriminate H.
    + injection H as <- _ _ _ _. reflexivity.
    + destruct (Htail _ H) as (d & o' & Heq). discriminate Heq.
  - intros public_key signature data pad alg o [H|[H|[H|H]]]; try discriminate H.
    + injection H as <- <- _ _ _ _. exists K.
      split; [reflexivity|]. split; [reflexivity|]. right. left. reflexivity.
    + destruct (Htail _ H) as (d & o' & Heq). injection Heq as -> -> _ _ _ _.
      exists K. split; [reflexivity|]. split; [reflexivity|]. right. left. reflexivity.
Qed.

(** Where a package's verification leaves the state alone and raises
    nothing outside [Exception]: paso 6 and paso 7 leave the state as they
    found it, log the one verification call, return nothing and print the
    report fixed by the call's outcome; and the state at the end of a run
    that got its signature is the one signing left. *)
Lemma only_decides_under_the_purity_law {L : Cryptography} :
  VerifyPureLaw -> VerifyRaisesExceptionLaw ->
  (forall public_key signature message w,
      let outcome := fst (rsa_verify public_key signature message
                            (PSS (MGF1 SHA256) MAX_LENGTH) SHA256 (lib_state w)) in
      paso6 public_key signature message w
      = (Return tt,
         mkWorld (stdout w ++ reporte_paso6 outcome)%list
                 (lib_state w)
                 (calls w ++ [CallVerify public_key signature message
                                (PSS (MGF1 SHA256) MAX_LENGTH) SHA256 outcome])%list))
  /\
  (forall public_key signature w,
      let message_alterado := b "Este es un mensaje modificado." in
      let outcome := fst (rsa_verify public_key signature message_alterado
                            (PSS (MGF1 SHA256) MAX_LENGTH) SHA256 (lib_state w)) in
      paso7 public_key signature message_alterado w
      = (Return tt,
         mkWorld (stdout w ++ linea_anuncio "Este es un mensaje modificado."
                    :: reporte_paso7 outcome)%list
                 (lib_state w)
                 (calls w ++ [CallVerify public_key signature message_alterado
                                (PSS (MGF1 SHA256) MAX_LENGTH) SHA256 outcome])%list))
  /\
  (forall w K s1 signature s2,
      rsa_generate_private_key 65537 2048 default_backend (lib_state w)
        = (Return K, s1) ->
      rsa_sign K (b "Este es el mensaje que quiero firmar digitalmente.")
        (PSS (MGF1 SHA256) MAX_LENGTH) SHA256 s1 = (Return signature, s2) ->
      lib_state (snd (firma_rsa w)) = s2
      /\ exists o1 o2,
           called firma_rsa w
           = [CallGenerate 65537 2048 default_backend (Return K);
              CallPublicKey K (rsa_public_key K);
              CallSign K (b "Este es el mensaje que quiero firmar digitalmente.")
                (PSS (MGF1 SHA256) MAX_LENGTH) SHA256 (Return signature);
              CallVerify (rsa_public_key K) signature
                (b "Este es el mensaje que quiero firmar digitalmente.")
                (PSS (MGF1 SHA256) MAX_LENGTH) SHA256 o1;
              CallVerify (rsa_public_key K) signature
                (b "Este es un mensaje modificado.")
                (PSS (MGF1 SHA256) MAX_LENGTH) SHA256 o2]).
Proof.
  intros Hpure Hexc.
  assert (Hesc : forall pk sg m s,
             escapes (fst (rsa_verify pk sg m (PSS (MGF1 SHA256) MAX_LENGTH)
                             SHA256 s)) = false).
  { intros pk sg m s.
    destruct (fst (rsa_verify pk sg m (PSS (MGF1 SHA256) MAX_LENGTH) SHA256 s))
      as [u|e] eqn:E; [reflexivity|].
    cbn [escapes]. rewrite (Hexc _ _ _ _ _ _ _ E). reflexivity. }
  split; [|split].
  - intros public_key signature message w. cbv zeta.
    rewrite paso6_run. cbv zeta. rewrite Hesc, Hpure. reflexivity.
  - intros public_key signature w. cbv zeta.
    rewrite (paso7_run _ _ _ _ _ decode_message_alterado). cbv zeta.
    rewrite Hesc, Hpure. reflexivity.
  - intros w K s1 signature s2 Hg Hs.
    destruct (firma_rsa_signed_facts w K s1 signature s2 Hg Hs)
      as (_ & _ & Hc & Hst).
    rewrite !Hesc in Hc, Hst. rewrite !Hpure in Hst. split; [exact Hst|].
    rewrite Hc. eexists. eexists. reflexivity.
Qed.

(** C8.  Verification only decides.  In the model of the package, the
    Verifier leaves the random source as it found it, and either returns
    or raises an exception of class [Exception]; under PSS padding it
    either returns or raises InvalidSignature, nothing else, whatever
    key, signature and message it is given.  So paso 6 and paso 7
    leave the package's state as they found it, add to the log the one
    verification call made on the key, signature and message they were
    given, return nothing, and print a report fixed by the call's
    outcome: the line of success or the diagnostic.  In a run that got
    its signature, both verifications are called on the public key of the
    generated private key and on the signature the signing call returned,
    and the package's state at the end is the one signing left. *)
Theorem verification_is_a_pure_decision
    (digest : HashAlgorithm -> bytes -> bytes) (digest_size : HashAlgorithm -> nat)
    (keygen : Z -> Z -> Backend -> RSAPSS.RandomSource ->
              Result RSAPSS.PrivateKey * RSAPSS.RandomSource) :
  let L := RSAPSS.lib digest digest_size keygen in
  (forall P signature data pad alg s,
      snd (RSAPSS.verify digest digest_size P signature data pad alg s) = s
      /\ (fst (RSAPSS.verify digest digest_size P signature data pad alg s)
          = Return tt
          \/ exists e,
               fst (RSAPSS.verify digest digest_size P signature data pad alg s)
               = Raise e
               /\ isinstance_Exception e = true))
  /\
  (forall P signature data mgf_alg salt_length alg s,
      RSAPSS.verify digest digest_size P signature data
        (PSS (MGF1 mgf_alg) salt_length) alg s
      = (Return tt, s)
      \/ RSAPSS.verify digest digest_size P signature data
           (PSS (MGF1 mgf_alg) salt_length) alg s
         = (Raise (mkExc InvalidSignature ""), s))
  /\
  (forall public_key signature message w,
      let outcome := fst (rsa_verify public_key signature message
                            (PSS (MGF1 SHA256) MAX_LENGTH) SHA256 (lib_state w)) in
      paso6 public_key signature message w
      = (Return tt,
         mkWorld (stdout w ++ reporte_paso6 outcome)%list
                 (lib_state w)
                 (calls w ++ [CallVerify public_key signature message
                                (PSS (MGF1 SHA256) MAX_LENGTH) SHA256 outcome])%list))
  /\
  (forall public_key signature w,
      let message_alterado := b "Este es un mensaje modificado." in
      let outcome := fst (rsa_verify public_key signature message_alterado
                            (PSS (MGF1 SHA256) MAX_LENGTH) SHA256 (lib_state w)) in
      paso7 public_key signature message_alterado w
      = (Return tt,
         mkWorld (stdout w ++ linea_anuncio "Este es un mensaje modificado."
                    :: reporte_paso7 outcome)%list
                 (lib_state w)
                 (calls w ++ [CallVerify public_key signature message_alterado
                                (PSS (MGF1 SHA256) MAX_LENGTH) SHA256 outcome])%list))
  /\
  (forall w K s1 signature s2,
      rsa_generate_private_key 65537 2048 default_backend (lib_state w)
        = (Return K, s1) ->
      rsa_sign K (b "Este es el mensaje que quiero firmar digitalmente.")
        (PSS (MGF1 SHA256) MAX_LENGTH) SHA256 s1 = (Return signature, s2) ->
      lib_state (snd (firma_rsa w)) = s2
      /\ exists o1 o2,
           called firma_rsa w
           = [CallGenerate 65537 2048 default_backend (Return K);
              CallPublicKey K (rsa_public_key K);
              CallSign K (b "Este es el mensaje que quiero firmar digitalmente.")
                (PSS (MGF1 SHA256) MAX_LENGTH) SHA256 (Return signature);
              CallVerify (rsa_public_key K) signature
                (b "Este es el mensaje que quiero firmar digitalmente.")
                (PSS (MGF1 SHA256) MAX_LENGTH) SHA256 o1;
              CallVerify (rsa_public_key K) signature
                (b "Este es un mensaje modificado.")
                (PSS (MGF1 SHA256) MAX_LENGTH) SHA256 o2]).
Proof.
  intros L.
  split; [|split;
    [exact (RSAPSSFacts.verify_pass_or_fail digest digest_size)
    |exact (only_decides_under_the_purity_law (L := L)
                    (RSAPSSFacts.model_verify_pure_law digest digest_size keygen)
                    (RSAPSSFacts.model_verify_raises_exception_law
                       digest digest_size keygen))]].
  intros P signature data pad alg s.
  destruct (RSAPSSFacts.verify_outcome digest digest_size P signature data pad alg s)
    as [Hs He].
  split; [exact Hs|].
  destruct (fst (RSAPSS.verify digest digest_size P signature data pad alg s))
    as [[]|e]; [left; reflexivity|].
  right. exists e. split; [reflexivity|]. apply He. reflexivity.
Qed.

Lemma verification_is_a_pure_decision_witness :
  snd (RSAPSS.verify PSSExamples.digest1 PSSExamples.digest1_size
         (RSAPSS.public_of PSSExamples.small_key) (b "no es una firma") (b "hola")
         (PSS (MGF1 SHA256) MAX_LENGTH) SHA256 PSSExamples.source)
  = PSSExamples.source
  /\ lib_state (snd (@paso6 PSSExamples.small_lib
                       (RSAPSS.public_of PSSExamples.small_key)
                       (b "no es una firma") (b "hola") PSSExamples.small_world0))
     = PSSExamples.source
  /\ lib_state (snd (@firma_rsa PSSExamples.small_lib PSSExamples.small_world0))
     = snd (RSAPSS.sign PSSExamples.digest1 PSSExamples.digest1_size
              PSSExamples.small_key
              (b "Este es el mensaje que quiero firmar digitalmente.")
              (PSS (MGF1 SHA256) MAX_LENGTH) SHA256 PSSExamples.source).
Proof.
  destruct (verification_is_a_pure_decision
              PSSExamples.digest1 PSSExamples.digest1_size PSSExamples.small_keygen)
    as (Hmodel & _ & H6 & _ & Hrun).
  assert (E : fst (RSAPSS.sign PSSExamples.digest1 PSSExamples.digest1_size
                     PSSExamples.small_key
                     (b "Este es el mensaje que quiero firmar digitalmente.")
                     (PSS (MGF1 SHA256) MAX_LENGTH) SHA256 PSSExamples.source)
              = Return [Byte.x03; Byte.xb9; Byte.x62; Byte.x17])
    by (vm_compute; reflexivity).
  split; [exact (proj1 (Hmodel _ _ _ _ _ _))|].
  split.
  - exact (f_equal (fun r => lib_state (snd r))
             (H6 (RSAPSS.public_of PSSExamples.small_key) (b "no es una firma")
                (b "hola") PSSExamples.small_world0)).
  - exact (proj1 (Hrun PSSExamples.small_world0 PSSExamples.small_key
                    PSSExamples.source _ _ eq_refl (pair_of_fst _ _ E))).
Defined.

(** C9.  Every exception of a verification takes the same branch.
    Whatever exception the verification call raises, paso 6 prints the one
    diagnostic line ending in the exception's text and returns, and
    paso 7 prints its alert and the line with the exception's text and
    returns: the report depends on the exception through [str(e)] alone,
    not on its class.  The package's law used: verification raises
    nothing outside [Exception], the class the [except] clause names. *)
Theorem verification_errors_take_one_branch {L : Cryptography} :
  VerifyRaisesExceptionLaw ->
  (forall public_key signature message w e,
      fst (rsa_verify public_key signature message
             (PSS (MGF1 SHA256) MAX_LENGTH) SHA256 (lib_state w)) = Raise e ->
      fst (paso6 public_key signature message w) = Return tt
      /\ printed (paso6 public_key signature message) w
         = [nl ++ "❌ ERROR: La firma no es válida. Esto podría indicar que el mensaje fue alterado o que la firma es falsa. Detalles: "
               ++ exc_str e])
  /\
  (forall public_key signature w e,
      fst (rsa_verify public_key signature (b "Este es un mensaje modificado.")
             (PSS (MGF1 SHA256) MAX_LENGTH) SHA256 (lib_state w)) = Raise e ->
      fst (paso7 public_key signature (b "Este es un mensaje modificado.") w)
        = Return tt
      /\ printed (paso7 public_key signature (b "Este es un mensaje modificado.")) w
         = [nl ++ "--- Intentando verificar la firma con un mensaje ALTERADO: 'Este es un mensaje modificado.' ---";
            "🛑 Alerta: La firma es INVÁLIDA para el mensaje alterado. Esto es lo esperado y demuestra que la firma digital detectó la manipulación.";
            "Error específico: " ++ exc_str e]).
Proof.
  intros Hexc. split.
  - intros public_key signature message w e He.
    pose proof (paso6_run public_key signature message w) as R. cbv zeta in R.
    rewrite He in R. cbn [escapes reporte_paso6] in R.
    rewrite (Hexc _ _ _ _ _ _ _ He) in R. cbn [negb] in R.
    split; [rewrite R; reflexivity|].
    apply printed_of. rewrite R. reflexivity.
  - intros public_key signature w e He.
    pose proof (paso7_run public_key signature _ _ w decode_message_alterado) as R.
    cbv zeta in R.
    rewrite He in R. cbn [escapes reporte_paso7] in R.
    rewrite (Hexc _ _ _ _ _ _ _ He) in R. cbn [negb] in R.
    split; [rewrite R; reflexivity|].
    apply printed_of. rewrite R. reflexivity.
Qed.

Lemma verification_errors_take_one_branch_witness :
  @VerifyRaisesExceptionLaw Toy.lib
  /\ fst (@rsa_verify Toy.lib (Toy.mkKey 2048) (b "no es una firma") (b "hola")
            (PSS (MGF1 SHA256) MAX_LENGTH) SHA256 0%Z)
     = Raise (mkExc InvalidSignature "")
  /\ printed (@paso6 Toy.lib (Toy.mkKey 2048) (b "no es una firma") (b "hola"))
       Toy.world0
     = [nl ++ "❌ ERROR: La firma no es válida. Esto podría indicar que el mensaje fue alterado o que la firma es falsa. Detalles: "
           ++ ""]
  /\ fst (@rsa_verify Toy.lib (Toy.mkKey 2048) (b "no es una firma")
            (b "Este es un mensaje modificado.")
            (PSS (MGF1 SHA256) MAX_LENGTH) SHA256 0%Z)
     = Raise (mkExc InvalidSignature "")
  /\ fst (@paso7 Toy.lib (Toy.mkKey 2048) (b "no es una firma")
            (b "Este es un mensaje modificado.") Toy.world0) = Return tt.
Proof.
  destruct (verification_errors_take_one_branch (L := Toy.lib)
              ToyFacts.verify_raises_exception_law) as [H6 H7].
  assert (Hv6 : fst (@rsa_verify Toy.lib (Toy.mkKey 2048) (b "no es una firma")
                       (b "hola") (PSS (MGF1 SHA256) MAX_LENGTH) SHA256 0%Z)
                = Raise (mkExc InvalidSignature ""))
    by (vm_compute; reflexivity).
  assert (Hv7 : fst (@rsa_verify Toy.lib (Toy.mkKey 2048) (b "no es una firma")
                       (b "Este es un mensaje modificado.")
                       (PSS (MGF1 SHA256) MAX_LENGTH) SHA256 0%Z)
                = Raise (mkExc InvalidSignature ""))
    by (vm_compute; reflexivity).
  split; [exact ToyFacts.verify_raises_exception_law|].
  split; [exact Hv6|].
  split; [exact (proj2 (H6 _ _ _ Toy.world0 _ Hv6))|].
  split; [exact Hv7|].
  exact (proj1 (H7 _ _ Toy.world0 _ Hv7)).
Defined.

(** C10.  The preview shows the first 30 octets of the signature, never
    all of it.  For a key generated with the script's parameters and any
    message, when paso 5 returns a signature it has printed one line: the
    fixed text, then the [repr] of the first 30 octets of that signature,
    then three dots.  Those 30 octets are a proper prefix: 226 more
    follow.  In a run of the script this line is the fourth one printed.
    The package's laws used: a generated key has the requested size, and
    a signature has as many octets as the modulus. *)
Theorem signature_preview_is_first_30_bytes {L : Cryptography} :
  KeySizeLaw -> SignatureLengthLaw ->
  forall s0 K s1,
    rsa_generate_private_key 65537 2048 default_backend s0 = (Return K, s1) ->
    (forall M w signature,
        fst (paso5 K M w) = Return signature ->
        printed (paso5 K M) w
        = ["✍️ Firma digital creada (primeros 30 bytes para referencia): "
             ++ repr_bytes (firstn 30 signature) ++ "..."]
        /\ List.length (firstn 30 signature) = 30%nat
        /\ firstn 30 signature <> signature
        /\ exists rest,
             signature = (firstn 30 signature ++ rest)%list
             /\ List.length rest = 226%nat)
    /\
    (forall w signature s2,
        lib_state w = s0 ->
        rsa_sign K (b "Este es el mensaje que quiero firmar digitalmente.")
          (PSS (MGF1 SHA256) MAX_LENGTH) SHA256 s1 = (Return signature, s2) ->
        nth_error (printed firma_rsa w) 3
        = Some ("✍️ Firma digital creada (primeros 30 bytes para referencia): "
                  ++ repr_bytes (firstn 30 signature) ++ "...")).
Proof.
  intros Hk Hl s0 K s1 Hg. split.
  - intros M w signature H5.
    apply paso5_returns in H5 as [Hs Hout].
    pose proof (generated_signature_length Hk Hl s0 K s1 Hg _ _ _ _ _ Hs) as Hlen.
    split; [apply printed_of; exact Hout|].
    assert (H30 : List.length (firstn 30 signature) = 30%nat).
    { rewrite length_firstn, Hlen. reflexivity. }
    split; [exact H30|]. split.
    + intros Heq. rewrite Heq in H30. rewrite Hlen in H30. discriminate H30.
    + exists (skipn 30 signature). split.
      * symmetry. apply firstn_skipn.
      * rewrite length_skipn, Hlen. reflexivity.
  - intros w signature s2 Hw Hs. subst s0.
    destruct (firma_rsa_signed_facts w K s1 signature s2 Hg Hs)
      as (_ & Hp & _ & _).
    rewrite Hp. reflexivity.
Qed.

Lemma signature_preview_is_first_30_bytes_witness :
  @KeySizeLaw Toy.lib /\ @SignatureLengthLaw Toy.lib
  /\ @rsa_generate_private_key Toy.lib 65537 2048 default_backend 0%Z
     = (Return (Toy.mkKey 2048), 256%Z)
  /\ fst (@paso5 Toy.lib (Toy.mkKey 2048) (b "hola") Toy.world0)
     = Return (Toy.firma (b "hola"))
  /\ printed (@paso5 Toy.lib (Toy.mkKey 2048) (b "hola")) Toy.world0
     = ["✍️ Firma digital creada (primeros 30 bytes para referencia): "
          ++ repr_bytes (firstn 30 (Toy.firma (b "hola"))) ++ "..."]
  /\ firstn 30 (Toy.firma (b "hola")) <> Toy.firma (b "hola")
  /\ nth_error (printed (@firma_rsa Toy.lib) Toy.world0) 3
     = Some ("✍️ Firma digital creada (primeros 30 bytes para referencia): "
               ++ repr_bytes
                    (firstn 30 (Toy.firma (b "Este es el mensaje que quiero firmar digitalmente.")))
               ++ "...").
Proof.
  destruct (signature_preview_is_first_30_bytes (L := Toy.lib)
              ToyFacts.key_size_law ToyFacts.signature_length_law
              0%Z (Toy.mkKey 2048) 256%Z eq_refl) as [Hstep Hrun].
  destruct (Hstep (b "hola") Toy.world0 (Toy.firma (b "hola")) eq_refl)
    as (Hp & _ & Hne & _).
  split; [exact ToyFacts.key_size_law|].
  split; [exact ToyFacts.signature_length_law|].
  split; [reflexivity|].
  split; [reflexivity|].
  split; [exact Hp|].
  split; [exact Hne|].
  exact (Hrun Toy.world0 _ 257%Z eq_refl eq_refl).
Defined.

(** ** Why rejection of other messages is not among the laws

    Signatures of a 2048-bit key are 256 octets long and messages are
    unbounded, so some two messages share a signature; the round trip
    accepts it for both.  Rejection of every other message can therefore
    only hold with a probability attached, which the interface does not
    speak of. *)

Lemma in_octet_strings n :
  forall data : bytes, List.length data = n -> In data (octet_strings n).
Proof.
  induction n as [|k IH]; intros data Hlen.
  - destruct data; [left; reflexivity | discriminate Hlen].
  - destruct data as [|c rest]; [discriminate Hlen|].
    cbn [octet_strings]. apply in_flat_map.
    exists c. split; [apply in_all_octets|].
    apply in_map. apply IH. injection Hlen as Hlen. exact Hlen.
Qed.

Remark rejection_of_other_messages_is_not_a_law {L : Cryptography} :
  KeySizeLaw -> SignatureLengthLaw -> SignVerifyLaw ->
  forall s0 K s1 s,
    rsa_generate_private_key 65537 2048 default_backend s0 = (Return K, s1) ->
    SignReturns K s ->
    ~ RejectsOtherMessages.
Proof.
  intros Hk Hl Hrt s0 K s1 s Hg Htot Hrej.
  set (f := signature_of K s).
  assert (Hf : forall data,
             fst (rsa_sign K data (PSS (MGF1 SHA256) MAX_LENGTH) SHA256 s)
             = Return (f data)).
  { intros data. destruct (Htot data) as [sg Hsg].
    unfold f, signature_of. rewrite Hsg. reflexivity. }
  assert (Hinj : forall d d', f d = f d' -> d = d').
  { intros d d' Heq.
    destruct (list_eq_dec Byte.byte_eq_dec d d') as [|Hne]; [assumption|].
    exfalso.
    pose proof (Hf d) as Hd. pose proof (Hf d') as Hd'.
    destruct (rsa_sign K d (PSS (MGF1 SHA256) MAX_LENGTH) SHA256 s)
      as [o s2] eqn:E. cbn [fst] in Hd. subst o.
    destruct (rsa_sign K d' (PSS (MGF1 SHA256) MAX_LENGTH) SHA256 s)
      as [o' s2'] eqn:E'. cbn [fst] in Hd'. subst o'.
    apply (Hrej _ _ _ _ _ _ Hg _ _ _ _ _ _ _ E Hne s).
    rewrite Heq. exact (Hrt _ _ _ _ _ _ Hg _ _ _ _ _ _ E' s). }
  set (N := List.length (octet_strings 256)).
  set (msgs := map (repeat Byte.x00) (seq 0 (S N))).
  assert (Hnd : NoDup (map f msgs)).
  { apply NoDup_map_NoDup_ForallPairs.
    - intros d d' _ _. apply Hinj.
    - unfold msgs. apply NoDup_map_NoDup_ForallPairs; [|apply seq_NoDup].
      intros i j _ _ Heq. apply (f_equal (@List.length _)) in Heq.
      rewrite !repeat_length in Heq. exact Heq. }
  assert (Hincl : incl (map f msgs) (octet_strings 256)).
  { intros sg Hin. apply in_map_iff in Hin as (d & <- & _).
    apply in_octet_strings.
    exact (generated_signature_length Hk Hl s0 K s1 Hg _ _ _ _ _ (Hf d)). }
  pose proof (NoDup_incl_length Hnd Hincl) as Hle.
  unfold msgs in Hle. rewrite !length_map, length_seq in Hle. fold N in Hle.
  lia.
Qed.

(** * Further properties of the script *)

Section MoreRuns.

Context {L : Cryptography}.

(** A run in which signing raises: three lines, three calls, and the
    exception goes up. *)
Lemma firma_rsa_unsigned w private_key s1 e s2 :
  rsa_generate_private_key 65537 2048 default_backend (lib_state w)
    = (Return private_key, s1) ->
  rsa_sign private_key (b "Este es el mensaje que quiero firmar digitalmente.")
    (PSS (MGF1 SHA256) MAX_LENGTH) SHA256 s1 = (Raise e, s2) ->
  firma_rsa w =
  (Raise e,
   mkWorld (stdout w ++ lineas_inicio)%list s2
     (calls w ++
        [CallGenerate 65537 2048 default_backend (Return private_key);
         CallPublicKey private_key (rsa_public_key private_key);
         CallSign private_key
           (b "Este es el mensaje que quiero firmar digitalmente.")
           (PSS (MGF1 SHA256) MAX_LENGTH) SHA256 (Raise e)])%list).
Proof.
  intros Hg Hs.
  rewrite firma_rsa_run. cbv zeta. rewrite Hg. world_simpl.
  unfold bind at 1. rewrite paso5_run. cbv zeta. world_simpl.
  rewrite Hs. world_simpl. rewrite <- app_assoc. reflexivity.
Qed.

End MoreRuns.

(** X1.  When key generation raises, the script stops there: it has
    printed its opening line only, made that one call, and the exception
    leaves the script unhandled. *)
Theorem key_generation_failure_stops_the_script {L : Cryptography} w e s1 :
  rsa_generate_private_key 65537 2048 default_backend (lib_state w)
    = (Raise e, s1) ->
  firma_rsa w =
  (Raise e,
   mkWorld (stdout w ++ ["🚀 Iniciando el proceso de firma digital con RSA..."])%list
     s1
     (calls w ++ [CallGenerate 65537 2048 default_backend (Raise e)])%list).
Proof.
  intros Hg. rewrite firma_rsa_run. cbv zeta. rewrite Hg. reflexivity.
Qed.

Lemma key_generation_failure_stops_the_script_witness :
  let g := Raise (mkExc InternalError "Unknown OpenSSL error") in
  let lib := Stub.lib g (Return []) (fun _ => Return tt) in
  @rsa_generate_private_key lib 65537 2048 default_backend 0%nat = (g, 1%nat)
  /\ fst (@firma_rsa lib (Stub.world0 g (Return []) (fun _ => Return tt)))
     = Raise (mkExc InternalError "Unknown OpenSSL error")
  /\ stdout (snd (@firma_rsa lib (Stub.world0 g (Return []) (fun _ => Return tt))))
     = ["🚀 Iniciando el proceso de firma digital con RSA..."].
Proof.
  cbv zeta. split; [reflexivity|].
  rewrite (key_generation_failure_stops_the_script
             (L := Stub.lib (Raise (mkExc InternalError "Unknown OpenSSL error"))
                     (Return []) (fun _ => Return tt))
             (Stub.world0 _ _ _) _ 1%nat eq_refl).
  split; reflexivity.
Defined.

(** X2.  When signing raises, the script stops there: it has printed the
    opening line, the key line and the message line, no preview; it has
    called key generation, the public key and signing, and no
    verification; the exception leaves the script unhandled. *)
Theorem signing_failure_stops_the_script {L : Cryptography} w K s1 e s2 :
  rsa_generate_private_key 65537 2048 default_backend (lib_state w)
    = (Return K, s1) ->
  rsa_sign K (b "Este es el mensaje que quiero firmar digitalmente.")
    (PSS (MGF1 SHA256) MAX_LENGTH) SHA256 s1 = (Raise e, s2) ->
  fst (firma_rsa w) = Raise e
  /\ printed firma_rsa w
     = ["🚀 Iniciando el proceso de firma digital con RSA...";
        "✅ Par de claves RSA (privada y pública) generado con éxito.";
        nl ++ "📝 Mensaje original: 'Este es el mensaje que quiero firmar digitalmente.'"]
  /\ called firma_rsa w
     = [CallGenerate 65537 2048 default_backend (Return K);
        CallPublicKey K (rsa_public_key K);
        CallSign K (b "Este es el mensaje que quiero firmar digitalmente.")
          (PSS (MGF1 SHA256) MAX_LENGTH) SHA256 (Raise e)]
  /\ lib_state (snd (firma_rsa w)) = s2.
Proof.
  intros Hg Hs. pose proof (firma_rsa_unsigned w K s1 e s2 Hg Hs) as R.
  split; [rewrite R; reflexivity|].
  split; [apply printed_of; rewrite R; reflexivity|].
  split; [apply called_of; rewrite R; reflexivity|].
  rewrite R. reflexivity.
Qed.

Lemma signing_failure_stops_the_script_witness :
  let sg := Raise (mkExc ValueError "Digest too big for RSA key") in
  let lib := Stub.lib (Return tt) sg (fun _ => Return tt) in
  @rsa_generate_private_key lib 65537 2048 default_backend 0%nat
    = (Return tt, 1%nat)
  /\ @rsa_sign lib tt (b "Este es el mensaje que quiero firmar digitalmente.")
       (PSS (MGF1 SHA256) MAX_LENGTH) SHA256 1%nat = (sg, 2%nat)
  /\ fst (@firma_rsa lib (Stub.world0 (Return tt) sg (fun _ => Return tt)))
     = Raise (mkExc ValueError "Digest too big for RSA key")
  /\ List.length
       (called (@firma_rsa lib) (Stub.world0 (Return tt) sg (fun _ => Return tt)))
     = 3%nat.
Proof.
  cbv zeta. split; [reflexivity|]. split; [reflexivity|].
  destruct (signing_failure_stops_the_script
              (L := Stub.lib (Return tt)
                      (Raise (mkExc ValueError "Digest too big for RSA key"))
                      (fun _ => Return tt))
              (Stub.world0 _ _ _) tt 1%nat _ 2%nat eq_refl eq_refl)
    as (Hr & _ & Hc & _).
  split; [exact Hr|]. rewrite Hc. reflexivity.
Defined.

(** The completion line differs from every other line the script prints. *)
Ltac lines_differ H := vm_compute in H; discriminate H.

Lemma linea_fin_not_inicio : ~ In linea_fin lineas_inicio.
Proof. intros [H|[H|[H|[]]]]; lines_differ H. Qed.

Lemma linea_fin_not_firma signature : linea_firma signature <> linea_fin.
Proof. intros H. lines_differ H. Qed.

Lemma linea_fin_not_anuncio text : linea_anuncio text <> linea_fin.
Proof. intros H. lines_differ H. Qed.

Lemma linea_fin_not_reporte6 outcome : ~ In linea_fin (reporte_paso6 outcome).
Proof. destruct outcome as [u|e]; intros [H|[]]; lines_differ H. Qed.

Lemma linea_fin_not_reporte7 outcome : ~ In linea_fin (reporte_paso7 outcome).
Proof.
  destruct outcome as [u|e]; [intros [H|[]]|intros [H|[H|[]]]]; lines_differ H.
Qed.

(** X3.  An exception outside [Exception] is not handled.  When the
    verification call raises one (a [KeyboardInterrupt], say), paso 6
    prints nothing and lets it through; paso 7 has printed its
    announcement only and lets it through; and a run whose first
    verification raises one ends there with that exception, after four
    calls, the altered message never verified. *)
Theorem exceptions_outside_Exception_pass_through {L : Cryptography} :
  (forall public_key signature message w e,
      fst (rsa_verify public_key signature message
             (PSS (MGF1 SHA256) MAX_LENGTH) SHA256 (lib_state w)) = Raise e ->
      isinstance_Exception e = false ->
      fst (paso6 public_key signature message w) = Raise e
      /\ printed (paso6 public_key signature message) w = [])
  /\
  (forall public_key signature w e,
      fst (rsa_verify public_key signature (b "Este es un mensaje modificado.")
             (PSS (MGF1 SHA256) MAX_LENGTH) SHA256 (lib_state w)) = Raise e ->
      isinstance_Exception e = false ->
      fst (paso7 public_key signature (b "Este es un mensaje modificado.") w)
        = Raise e
      /\ printed (paso7 public_key signature (b "Este es un mensaje modificado.")) w
         = [nl ++ "--- Intentando verificar la firma con un mensaje ALTERADO: 'Este es un mensaje modificado.' ---"])
  /\
  (forall w K s1 signature s2 e,
      rsa_generate_private_key 65537 2048 default_backend (lib_state w)
        = (Return K, s1) ->
      rsa_sign K (b "Este es el mensaje que quiero firmar digitalmente.")
        (PSS (MGF1 SHA256) MAX_LENGTH) SHA256 s1 = (Return signature, s2) ->
      fst (rsa_verify (rsa_public_key K) signature
             (b "Este es el mensaje que quiero firmar digitalmente.")
             (PSS (MGF1 SHA256) MAX_LENGTH) SHA256 s2) = Raise e ->
      isinstance_Exception e = false ->
      fst (firma_rsa w) = Raise e
      /\ called firma_rsa w
         = [CallGenerate 65537 2048 default_backend (Return K);
            CallPublicKey K (rsa_public_key K);
            CallSign K (b "Este es el mensaje que quiero firmar digitalmente.")
              (PSS (MGF1 SHA256) MAX_LENGTH) SHA256 (Return signature);
            CallVerify (rsa_public_key K) signature
              (b "Este es el mensaje que quiero firmar digitalmente.")
              (PSS (MGF1 SHA256) MAX_LENGTH) SHA256 (Raise e)]).
Proof.
  split; [|split].
  - intros public_key signature message w e He Hi.
    pose proof (paso6_run public_key signature message w) as R. cbv zeta in R.
    rewrite He in R. cbn [escapes] in R. rewrite Hi in R. cbn [negb] in R.
    split; [rewrite R; reflexivity|].
    apply printed_of. rewrite R. cbn [snd stdout]. rewrite app_nil_r. reflexivity.
  - intros public_key signature w e He Hi.
    pose proof (paso7_run public_key signature _ _ w decode_message_alterado) as R.
    cbv zeta in R.
    rewrite He in R. cbn [escapes] in R. rewrite Hi in R. cbn [negb] in R.
    split; [rewrite R; reflexivity|].
    apply printed_of. rewrite R. reflexivity.
  - intros w K s1 signature s2 e Hg Hs He Hi.
    destruct (firma_rsa_signed_facts w K s1 signature s2 Hg Hs)
      as (Hr & _ & Hc & _).
    rewrite He in Hr, Hc. cbn [escapes] in Hr, Hc. rewrite Hi in Hr, Hc.
    cbn [negb] in Hr, Hc. split; [exact Hr|]. rewrite Hc. reflexivity.
Qed.

Lemma exceptions_outside_Exception_pass_through_witness :
  let v := fun _ : bytes => Raise (A := unit) (mkExc KeyboardInterrupt "") in
  let lib := Stub.lib (Return tt) (Return (b "firma")) v in
  let w0 := Stub.world0 (Return tt) (Return (b "firma")) v in
  isinstance_Exception (mkExc KeyboardInterrupt "") = false
  /\ fst (@paso6 lib tt (b "firma") (b "hola") w0)
     = Raise (mkExc KeyboardInterrupt "")
  /\ printed (@paso6 lib tt (b "firma") (b "hola")) w0 = []
  /\ fst (@paso7 lib tt (b "firma") (b "Este es un mensaje modificado.") w0)
     = Raise (mkExc KeyboardInterrupt "")
  /\ fst (@firma_rsa lib w0) = Raise (mkExc KeyboardInterrupt "")
  /\ List.length (called (@firma_rsa lib) w0) = 4%nat.
Proof.
  cbv zeta.
  destruct (exceptions_outside_Exception_pass_through
              (L := Stub.lib (Return tt) (Return (b "firma"))
                      (fun _ => Raise (mkExc KeyboardInterrupt ""))))
    as (H6 & H7 & Hrun).
  destruct (H6 tt (b "firma") (b "hola") (Stub.world0 _ _ _) _ eq_refl eq_refl)
    as [H6r H6p].
  destruct (H7 tt (b "firma") (Stub.world0 _ _ _) _ eq_refl eq_refl) as [H7r _].
  destruct (Hrun (Stub.world0 _ _ _) tt 1%nat (b "firma") 2%nat _
              eq_refl eq_refl eq_refl eq_refl) as [Hr Hc].
  split; [reflexivity|].
  split; [exact H6r|].
  split; [exact H6p|].
  split; [exact H7r|].
  split; [exact Hr|].
  rewrite Hc. reflexivity.
Defined.

(** X4.  The completion line is printed by the runs that return normally,
    and by no other: a run that ends with an exception (from key
    generation, from signing, or one outside [Exception] from a
    verification) has not printed it. *)
Theorem completion_line_iff_normal_return {L : Cryptography} (w : World) :
  In (nl ++ "🎉 Proceso de firma y verificación digital con RSA completado.")
     (printed firma_rsa w)
  <-> fst (firma_rsa w) = Return tt.
Proof.
  change (nl ++ "🎉 Proceso de firma y verificación digital con RSA completado.")
    with linea_fin.
  destruct (rsa_generate_private_key 65537 2048 default_backend (lib_state w))
    as [[K|e] s1] eqn:Hg.
  2:{ pose proof (firma_rsa_run w) as R. cbv zeta in R. rewrite Hg in R.
      cbn [fst snd] in R.
      rewrite (printed_of firma_rsa w (firstn 1 lineas_inicio))
        by (rewrite R; reflexivity).
      rewrite R. cbn [fst]. split; [|discriminate].
      intros H. exfalso. apply linea_fin_not_inicio.
      destruct H as [H|[]]. left. exact H. }
  destruct (rsa_sign K (b "Este es el mensaje que quiero firmar digitalmente.")
              (PSS (MGF1 SHA256) MAX_LENGTH) SHA256 s1)
    as [[signature|e] s2] eqn:Hs.
  2:{ pose proof (firma_rsa_unsigned w K s1 e s2 Hg Hs) as R.
      rewrite (printed_of firma_rsa w lineas_inicio) by (rewrite R; reflexivity).
      rewrite R. cbn [fst]. split; [|discriminate].
      intros H. exfalso. exact (linea_fin_not_inicio H). }
  destruct (firma_rsa_signed_facts w K s1 signature s2 Hg Hs)
    as (Hr & Hp & _ & _).
  rewrite Hr, Hp. clear Hr Hp.
  set (o1 := fst (rsa_verify (rsa_public_key K) signature
                    (b "Este es el mensaje que quiero firmar digitalmente.")
                    (PSS (MGF1 SHA256) MAX_LENGTH) SHA256 s2)).
  set (o2 := fst (rsa_verify (rsa_public_key K) signature
                    (b "Este es un mensaje modificado.")
                    (PSS (MGF1 SHA256) MAX_LENGTH) SHA256 _)).
  rewrite in_app_iff. cbn [In]. 
  destruct (escapes o1) eqn:E1.
  - split.
    + intros [H|[H|[]]].
      * exfalso. exact (linea_fin_not_inicio H).
      * exfalso. exact (linea_fin_not_firma _ H).
    + destruct o1 as [u|e1]; [discriminate E1|discriminate].
  - rewrite in_app_iff. cbn [In].
    destruct (escapes o2) eqn:E2.
    + split.
      * intros [H|[H|[H|[H|[]]]]]; exfalso.
        -- exact (linea_fin_not_inicio H).
        -- exact (linea_fin_not_firma _ H).
        -- exact (linea_fin_not_reporte6 _ H).
        -- exact (linea_fin_not_anuncio _ H).
      * destruct o2 as [u|e2]; [discriminate E2|discriminate].
    + split; [reflexivity|]. intros _.
      right. right. right. right. apply in_or_app. right. left. reflexivity.
Qed.

(** X5.  The reports tell the outcome.  Paso 6 prints its line of success
    exactly when the verification call returned; paso 7 prints its
    warning that the signature is valid for the altered message exactly
    when the call returned, and its alert exactly when the call raised an
    exception the [except] clause handles. *)
Theorem reports_tell_the_outcome {L : Cryptography} :
  (forall public_key signature message w,
      In (nl ++ "✅ Firma verificada con éxito. El mensaje es auténtico y no ha sido alterado.")
         (printed (paso6 public_key signature message) w)
      <-> fst (rsa_verify public_key signature message
                 (PSS (MGF1 SHA256) MAX_LENGTH) SHA256 (lib_state w)) = Return tt)
  /\
  (forall public_key signature w,
      In "⚠️ ¡Advertencia! La firma ES VÁLIDA para el mensaje alterado. Esto NO debería ocurrir."
         (printed (paso7 public_key signature (b "Este es un mensaje modificado.")) w)
      <-> fst (rsa_verify public_key signature (b "Este es un mensaje modificado.")
                 (PSS (MGF1 SHA256) MAX_LENGTH) SHA256 (lib_state w)) = Return tt)
  /\
  (forall public_key signature w,
      In "🛑 Alerta: La firma es INVÁLIDA para el mensaje alterado. Esto es lo esperado y demuestra que la firma digital detectó la manipulación."
         (printed (paso7 public_key signature (b "Este es un mensaje modificado.")) w)
      <-> exists e,
            fst (rsa_verify public_key signature (b "Este es un mensaje modificado.")
                   (PSS (MGF1 SHA256) MAX_LENGTH) SHA256 (lib_state w)) = Raise e
            /\ isinstance_Exception e = true).
Proof.
  split; [|split].
  - intros public_key signature message w.
    pose proof (paso6_run public_key signature message w) as R. cbv zeta in R.
    destruct (fst (rsa_verify public_key signature message
                     (PSS (MGF1 SHA256) MAX_LENGTH) SHA256 (lib_state w)))
      as [[]|e]; cbn [escapes reporte_paso6] in R.
    + rewrite (printed_of _ _ _ (f_equal (fun r => stdout (snd r)) R)).
      split; [reflexivity|]. intros _. left. reflexivity.
    + split; [|discriminate]. intros H. exfalso.
      destruct (isinstance_Exception e); cbn [negb] in R.
      * rewrite (printed_of _ _ _ (f_equal (fun r => stdout (snd r)) R)) in H.
        destruct H as [H|[]]. lines_differ H.
      * rewrite (printed_of _ _ [] (eq_trans (f_equal (fun r => stdout (snd r)) R)
                                      (eq_sym (app_nil_r _)))) in H.
        destruct H.
  - intros public_key signature w.
    pose proof (paso7_run public_key signature _ _ w decode_message_alterado) as R.
    cbv zeta in R.
    destruct (fst (rsa_verify public_key signature (b "Este es un mensaje modificado.")
                     (PSS (MGF1 SHA256) MAX_LENGTH) SHA256 (lib_state w)))
      as [[]|e]; cbn [escapes reporte_paso7] in R.
    + rewrite (printed_of _ _ _ (f_equal (fun r => stdout (snd r)) R)).
      split; [reflexivity|]. intros _. right. left. reflexivity.
    + split; [|discriminate]. intros H. exfalso.
      destruct (isinstance_Exception e); cbn [negb] in R;
        rewrite (printed_of _ _ _ (f_equal (fun r => stdout (snd r)) R)) in H.
      * destruct H as [H|[H|[H|[]]]]; lines_differ H.
      * destruct H as [H|[]]. lines_differ H.
  - intros public_key signature w.
    pose proof (paso7_run public_key signature _ _ w decode_message_alterado) as R.
    cbv zeta in R.
    destruct (fst (rsa_verify public_key signature (b "Este es un mensaje modificado.")
                     (PSS (MGF1 SHA256) MAX_LENGTH) SHA256 (lib_state w)))
      as [[]|e]; cbn [escapes reporte_paso7] in R.
    + rewrite (printed_of _ _ _ (f_equal (fun r => stdout (snd r)) R)).
      split.
      * intros [H|[H|[]]]; lines_differ H.
      * intros (e & He & _). discriminate He.
    + destruct (isinstance_Exception e) eqn:Hi; cbn [negb] in R;
        rewrite (printed_of _ _ _ (f_equal (fun r => stdout (snd r)) R)).
      * split; [|intros _; right; left; reflexivity].
        intros _. exists e. split; [reflexivity|exact Hi].
      * split.
        -- intros [H|[]]. lines_differ H.
        -- intros (e' & He & Hi'). injection He as <-. congruence.
Qed.

(** X6.  One scheme for every call.  In every run the script calls the
    package at most five times; every signing call is on the original
    message, every verification call on the original or the altered
    message, and all of them under PSS with MGF1 over SHA-256 and the
    maximal salt length, with SHA-256 as digest; and the altered message
    is verified only after a verification of the original message that
    returned or raised an exception the [except] clause handles. *)
Theorem calls_follow_one_scheme {L : Cryptography} (w : World) :
  (List.length (called firma_rsa w) <= 5)%nat
  /\ (forall private_key data pad alg o,
         In (CallSign private_key data pad alg o) (called firma_rsa w) ->
         data = b "Este es el mensaje que quiero firmar digitalmente."
         /\ pad = PSS (MGF1 SHA256) MAX_LENGTH /\ alg = SHA256)
  /\ (forall public_key signature data pad alg o,
         In (CallVerify public_key signature data pad alg o) (called firma_rsa w) ->
         (data = b "Este es el mensaje que quiero firmar digitalmente."
          \/ data = b "Este es un mensaje modificado.")
         /\ pad = PSS (MGF1 SHA256) MAX_LENGTH /\ alg = SHA256)
  /\ (forall public_key signature pad alg o,
         In (CallVerify public_key signature (b "Este es un mensaje modificado.")
               pad alg o) (called firma_rsa w) ->
         exists o1,
           In (CallVerify public_key signature
                 (b "Este es el mensaje que quiero firmar digitalmente.")
                 pad alg o1) (called firma_rsa w)
           /\ (o1 = Return tt
               \/ exists e, o1 = Raise e /\ isinstance_Exception e = true)).
Proof.
  rewrite firma_rsa_called. cbv zeta.
  destruct (rsa_generate_private_key 65537 2048 default_backend (lib_state w))
    as [[K|e0] s1]; world_simpl.
  2:{ split; [cbn; lia|].
      repeat split; intros; destruct H as [H|[]]; discriminate H. }
  destruct (rsa_sign K (b "Este es el mensaje que quiero firmar digitalmente.")
              (PSS (MGF1 SHA256) MAX_LENGTH) SHA256 s1) as [[sg|e1] s2];
    world_simpl.
  2:{ split; [cbn; lia|]. split; [|split].
      - intros private_key data pad alg o [H|[H|[H|[]]]]; try discriminate H.
        injection H as _ <- <- <- _. repeat split.
      - intros public_key signature data pad alg o [H|[H|[H|[]]]]; discriminate H.
      - intros public_key signature pad alg o [H|[H|[H|[]]]]; discriminate H. }
  set (o1 := fst (rsa_verify (rsa_public_key K) sg
                    (b "Este es el mensaje que quiero firmar digitalmente.")
                    (PSS (MGF1 SHA256) MAX_LENGTH) SHA256 s2)).
  set (o2 := fst (rsa_verify (rsa_public_key K) sg
                    (b "Este es un mensaje modificado.")
                    (PSS (MGF1 SHA256) MAX_LENGTH) SHA256 _)).
  destruct (escapes o1) eqn:E1.
  - split; [cbn; lia|]. split; [|split].
    + intros private_key data pad alg o [H|[H|[H|[H|[]]]]]; try discriminate H.
      injection H as _ <- <- <- _. repeat split.
    + intros public_key signature data pad alg o [H|[H|[H|[H|[]]]]];
        try discriminate H.
      injection H as _ _ <- <- <- _. repeat split. left. reflexivity.
    + intros public_key signature pad alg o [H|[H|[H|[H|[]]]]];
        discriminate H.
  - split; [cbn; lia|]. split; [|split].
    + intros private_key data pad alg o [H|[H|[H|[H|[H|[]]]]]];
        try discriminate H.
      injection H as _ <- <- <- _. repeat split.
    + intros public_key signature data pad alg o [H|[H|[H|[H|[H|[]]]]]];
        try discriminate H.
      * injection H as _ _ <- <- <- _. repeat split. left. reflexivity.
      * injection H as _ _ <- <- <- _. repeat split. right. reflexivity.
    + intros public_key signature pad alg o [H|[H|[H|[H|[H|[]]]]]];
        try discriminate H.
      injection H as <- <- <- <- _. exists o1. split.
      * right. right. right. left. reflexivity.
      * destruct o1 as [[]|e]; [left; reflexivity|right].
        exists e. split; [reflexivity|].
        cbn [escapes] in E1. destruct (isinstance_Exception e);
          [reflexivity|discriminate E1].
Qed.

Lemma utf8_valid_ascii data :
  is_ascii data = true -> utf8_valid_from U_start data = true.
Proof.
  induction data as [|c rest IH]; intros H; [reflexivity|].
  cbn [is_ascii forallb] in H. apply andb_prop in H as [Hc Hrest].
  cbn [utf8_valid_from utf8_step]. rewrite Hc. exact (IH Hrest).
Qed.

(** X7.  The messages are decoded outside the [try] blocks.  Paso 4
    shows an ASCII message as written, between quotes, and changes
    nothing else.  A message that is not well-formed UTF-8 makes paso 4
    raise [UnicodeDecodeError] with nothing printed; and an altered
    message of that kind makes paso 7 raise it before the announcement
    and before any verification call: although the class derives from
    [Exception], the [except] clause of paso 7 does not see it. *)
Theorem messages_are_decoded_outside_try {L : Cryptography} :
  (forall text w,
      is_ascii (b text) = true ->
      paso4 (b text) w
      = (Return tt,
         mkWorld (stdout w ++ [(nl ++ "📝 Mensaje original: '" ++ text ++ "'")%string])%list
                 (lib_state w) (calls w)))
  /\
  (forall message w,
      utf8_valid_from U_start message = false ->
      exists e,
        exc_class e = UnicodeDecodeError
        /\ paso4 message w = (Raise e, w))
  /\
  (forall public_key signature message_alterado w,
      utf8_valid_from U_start message_alterado = false ->
      exists e,
        exc_class e = UnicodeDecodeError
        /\ isinstance_Exception e = true
        /\ paso7 public_key signature message_alterado w = (Raise e, w)).
Proof.
  split; [|split].
  - intros text w Ha. unfold paso4, bind, lift, decode.
    rewrite (utf8_valid_ascii _ Ha). unfold b.
    rewrite string_of_list_byte_of_string. reflexivity.
  - intros message w Hv. eexists. split; [|unfold paso4, bind, lift, decode;
      rewrite Hv; reflexivity]. reflexivity.
  - intros public_key signature message_alterado w Hv. eexists.
    split; [|split; [|unfold paso7, bind, lift, decode; rewrite Hv; reflexivity]];
      reflexivity.
Qed.

Lemma messages_are_decoded_outside_try_witness :
  is_ascii (b "hola") = true
  /\ printed (@paso4 Toy.lib (b "hola")) Toy.world0
     = [nl ++ "📝 Mensaje original: 'hola'"]
  /\ utf8_valid_from U_start [Byte.x68; Byte.xff] = false
  /\ (exists e, exc_class e = UnicodeDecodeError
                /\ @paso4 Toy.lib [Byte.x68; Byte.xff] Toy.world0
                   = (Raise e, Toy.world0))
  /\ (exists e, exc_class e = UnicodeDecodeError
                /\ isinstance_Exception e = true
                /\ @paso7 Toy.lib (Toy.mkKey 2048) (Toy.firma (b "hola"))
                     [Byte.x68; Byte.xff] Toy.world0
                   = (Raise e, Toy.world0)).
Proof.
  destruct (messages_are_decoded_outside_try (L := Toy.lib)) as (H4 & H4e & H7e).
  split; [reflexivity|].
  split; [apply printed_of; rewrite (H4 "hola" Toy.world0 eq_refl); reflexivity|].
  split; [reflexivity|].
  split; [exact (H4e [Byte.x68; Byte.xff] Toy.world0 eq_refl)|].
  exact (H7e (Toy.mkKey 2048) (Toy.firma (b "hola")) [Byte.x68; Byte.xff]
           Toy.world0 eq_refl).
Defined.

(** X8.  The preview never fails and never shows more than 30 octets,
    whatever the signature.  When paso 5 gets a signature it prints the
    [repr] of its first [min 30 len] octets, which are a prefix of it;
    a signature of 30 octets or fewer is shown whole.  No law of the
    package is used. *)
Theorem preview_is_a_prefix_of_any_signature {L : Cryptography} :
  forall K M w signature,
    fst (paso5 K M w) = Return signature ->
    printed (paso5 K M) w
    = ["✍️ Firma digital creada (primeros 30 bytes para referencia): "
         ++ repr_bytes (firstn 30 signature) ++ "..."]
    /\ List.length (firstn 30 signature) = Nat.min 30 (List.length signature)
    /\ (exists rest, signature = (firstn 30 signature ++ rest)%list)
    /\ ((List.length signature <= 30)%nat -> firstn 30 signature = signature).
Proof.
  intros K M w signature H5.
  apply paso5_returns in H5 as [_ Hout].
  split; [apply printed_of; exact Hout|].
  split; [apply length_firstn|].
  split; [exists (skipn 30 signature); symmetry; apply firstn_skipn|].
  apply firstn_all2.
Qed.

Lemma preview_is_a_prefix_of_any_signature_witness :
  let lib := Stub.lib (Return tt) (Return (b "corta")) (fun _ => Return tt) in
  let w0 := Stub.world0 (Return tt) (Return (b "corta")) (fun _ => Return tt) in
  fst (@paso5 lib tt (b "hola") w0) = Return (b "corta")
  /\ printed (@paso5 lib tt (b "hola")) w0
     = ["✍️ Firma digital creada (primeros 30 bytes para referencia): b'corta'..."]
  /\ firstn 30 (b "corta") = b "corta".
Proof.
  cbv zeta.
  destruct (preview_is_a_prefix_of_any_signature
              (L := Stub.lib (Return tt) (Return (b "corta")) (fun _ => Return tt))
              tt (b "hola") (Stub.world0 _ _ _) (b "corta") eq_refl)
    as (Hp & _ & _ & Hall).
  split; [reflexivity|].
  split; [exact Hp|].
  apply Hall. cbn. lia.
Defined.

(** X9.  The transcript of a run that returns normally.  Such a run has
    printed, in this order and nothing else: the opening line, the key
    line, the message line, the signature preview, the report of the
    first verification (one line), the announcement of the altered
    message, the report of the second verification (one line if it
    returned, two if it raised) and the completion line. *)
Theorem transcript_of_a_normal_run {L : Cryptography} w K s1 signature s2 :
  rsa_generate_private_key 65537 2048 default_backend (lib_state w)
    = (Return K, s1) ->
  rsa_sign K (b "Este es el mensaje que quiero firmar digitalmente.")
    (PSS (MGF1 SHA256) MAX_LENGTH) SHA256 s1 = (Return signature, s2) ->
  fst (firma_rsa w) = Return tt ->
  let v1 := rsa_verify (rsa_public_key K) signature
              (b "Este es el mensaje que quiero firmar digitalmente.")
              (PSS (MGF1 SHA256) MAX_LENGTH) SHA256 s2 in
  let v2 := rsa_verify (rsa_public_key K) signature
              (b "Este es un mensaje modificado.")
              (PSS (MGF1 SHA256) MAX_LENGTH) SHA256 (snd v1) in
  printed firma_rsa w
  = (["🚀 Iniciando el proceso de firma digital con RSA...";
      "✅ Par de claves RSA (privada y pública) generado con éxito.";
      (nl ++ "📝 Mensaje original: 'Este es el mensaje que quiero firmar digitalmente.'")%string;
      ("✍️ Firma digital creada (primeros 30 bytes para referencia): "
         ++ repr_bytes (firstn 30 signature) ++ "...")%string]
       ++ reporte_paso6 (fst v1)
       ++ [(nl ++ "--- Intentando verificar la firma con un mensaje ALTERADO: 'Este es un mensaje modificado.' ---")%string]
       ++ reporte_paso7 (fst v2)
       ++ [(nl ++ "🎉 Proceso de firma y verificación digital con RSA completado.")%string])%list
  /\ (8 <= List.length (printed firma_rsa w) <= 9)%nat.
Proof.
  intros Hg Hs Hret. cbv zeta.
  destruct (firma_rsa_signed_facts w K s1 signature s2 Hg Hs)
    as (Hr & Hp & _ & _).
  rewrite Hret in Hr.
  set (o1 := fst (rsa_verify (rsa_public_key K) signature
                    (b "Este es el mensaje que quiero firmar digitalmente.")
                    (PSS (MGF1 SHA256) MAX_LENGTH) SHA256 s2)) in *.
  set (o2 := fst (rsa_verify (rsa_public_key K) signature
                    (b "Este es un mensaje modificado.")
                    (PSS (MGF1 SHA256) MAX_LENGTH) SHA256 _)) in *.
  destruct (escapes o1) eqn:E1.
  { destruct o1 as [u|e]; [discriminate E1|discriminate Hr]. }
  destruct (escapes o2) eqn:E2.
  { destruct o2 as [u|e]; [discriminate E2|discriminate Hr]. }
  rewrite Hp. split.
  - reflexivity.
  - rewrite length_app. cbn [lineas_inicio List.length].
    rewrite length_app. cbn [List.length]. rewrite length_app. cbn [List.length].
    destruct o1 as [u1|e1], o2 as [u2|e2]; cbn [reporte_paso6 reporte_paso7 List.length];
      lia.
Qed.

Lemma transcript_of_a_normal_run_witness :
  @rsa_generate_private_key Toy.lib 65537 2048 default_backend 0%Z
    = (Return (Toy.mkKey 2048), 256%Z)
  /\ @rsa_sign Toy.lib (Toy.mkKey 2048)
       (b "Este es el mensaje que quiero firmar digitalmente.")
       (PSS (MGF1 SHA256) MAX_LENGTH) SHA256 256%Z
     = (Return (Toy.firma (b "Este es el mensaje que quiero firmar digitalmente.")),
        257%Z)
  /\ fst (@firma_rsa Toy.lib Toy.world0) = Return tt
  /\ (8 <= List.length (printed (@firma_rsa Toy.lib) Toy.world0) <= 9)%nat.
Proof.
  assert (Hret : fst (@firma_rsa Toy.lib Toy.world0) = Return tt)
    by (vm_compute; reflexivity).
  split; [reflexivity|]. split; [reflexivity|]. split; [exact Hret|].
  exact (proj2 (transcript_of_a_normal_run (L := Toy.lib) Toy.world0
                  (Toy.mkKey 2048) 256%Z
                  (Toy.firma (b "Este es el mensaje que quiero firmar digitalmente."))
                  257%Z eq_refl eq_refl Hret)).
Defined.
